(** * MultiFinX, ROUND_2/agents: the expert pipeline and its orchestration graph

    A shallow embedding of [agent_nodes.py] and [group_agents.py].

    - Python [str] values are [string]s holding the UTF-8 bytes of the text.
    - Python objects that flow through the state (JSON values, state
      dictionaries, search records) are [pyval]s; a [dict] is an
      insertion-ordered association list, as Python iterates it.
    - The collaborators (model client, search tool, file system, process
      environment) and the library functions the code calls but does not
      define are the fields of the class [Env].
    - Code that calls collaborators lives in the monad [M]: it threads the
      state of the outside world and a trace of the calls made, and returns
      either a value or a raised exception, carried as its message [str(e)].
      Only exceptions derived from [Exception] are modelled, the ones
      [except Exception] catches.  [print] calls are left out. *)

From Stdlib Require Import ZArith Ascii Sorted.
From stdpp Require Import base list strings pretty.

Local Open Scope stdpp_scope.

(** ** Strings *)

Module Str.

(** [s.startswith(p)] *)
Fixpoint startswith (p s : string) : bool :=
  match p, s with
  | EmptyString, _ => true
  | String a p', String b s' => if decide (a = b) then startswith p' s' else false
  | String _ _, EmptyString => false
  end.

(** [sub in s] *)
Fixpoint contains (sub s : string) : bool :=
  startswith sub s ||
  match s with
  | EmptyString => false
  | String _ s' => contains sub s'
  end.

Fixpoint drop (n : nat) (s : string) : string :=
  match n, s with
  | S n', String _ s' => drop n' s'
  | _, _ => s
  end.

(** [s.split(sep)] for a non-empty [sep]: [skip] counts the characters of a
    separator still to be passed over, [cur] is the piece being read. *)
Fixpoint split_go (sep : string) (skip : nat) (cur : string) (s : string)
  : list string :=
  match s with
  | EmptyString => [cur]
  | String c s' =>
      match skip with
      | S k => split_go sep k cur s'
      | O =>
          if startswith sep s
          then cur :: split_go sep (String.length sep - 1) EmptyString s'
          else split_go sep 0 (cur +:+ String c EmptyString) s'
      end
  end.
Definition split (sep s : string) : list string := split_go sep 0 EmptyString s.

(** Removal of leading pieces drawn from [toks]; [fuel] bounds the number
    of pieces removed. *)
Fixpoint lstrip_go (fuel : nat) (toks : list string) (s : string) : string :=
  match fuel with
  | O => s
  | S fuel' =>
      match List.find (fun t => startswith t s) toks with
      | Some t => lstrip_go fuel' toks (drop (String.length t) s)
      | None => s
      end
  end.
Definition lstrip (toks : list string) (s : string) : string :=
  lstrip_go (String.length s) toks s.
Definition rstrip (toks : list string) (s : string) : string :=
  String.rev (lstrip (String.rev <$> toks) (String.rev s)).
Definition strip_tokens (toks : list string) (s : string) : string :=
  rstrip toks (lstrip toks s).

Definition chr (n : nat) : string := String (ascii_of_nat n) EmptyString.
Definition chr2 (a b : nat) : string := String (ascii_of_nat a) (chr b).
Definition chr3 (a b c : nat) : string := String (ascii_of_nat a) (chr2 b c).

(** The code points [str.strip()] removes, in UTF-8: U+0009-000D,
    U+001C-001F, U+0020, U+0085, U+00A0, U+1680, U+2000-200A, U+2028,
    U+2029, U+202F, U+205F, U+3000. *)
Definition whitespace : list string :=
  (chr <$> [9; 10; 11; 12; 13; 28; 29; 30; 31; 32]%nat)
  ++ [chr2 194 133; chr2 194 160; chr3 225 154 128]
  ++ ((fun k => chr3 226 128 k) <$> [128; 129; 130; 131; 132; 133; 134; 135; 136; 137; 138]%nat)
  ++ [chr3 226 128 168; chr3 226 128 169; chr3 226 128 175; chr3 226 129 159;
      chr3 227 128 128].

(** [s.strip()] *)
Definition strip (s : string) : string := strip_tokens whitespace s.

(** [s.strip(chars)] for ASCII [chars] *)
Definition strip_chars (chars : list ascii) (s : string) : string :=
  strip_tokens ((fun c => String c EmptyString) <$> chars) s.

(** A UTF-8 continuation byte, 10xxxxxx. *)
Definition is_cont (c : ascii) : bool :=
  let n := nat_of_ascii c in (Nat.leb 128 n && Nat.ltb n 192)%bool.

(** The characters (code points) of a string, each as its own string. *)
Definition next_is_cont (s : string) : bool :=
  match s with
  | String c _ => is_cont c
  | EmptyString => false
  end.
Fixpoint chars (s : string) : list string :=
  match s with
  | EmptyString => []
  | String c s' =>
      match next_is_cont s', chars s' with
      | true, h :: t => String c h :: t
      | _, r => String c EmptyString :: r
      end
  end.

(** [s[-1]]: [None] stands for the IndexError on the empty string. *)
Definition last_char (s : string) : option string := last (chars s).

(** The last byte of a string, if it has one. *)
Fixpoint last_byte (s : string) : option ascii :=
  match s with
  | EmptyString => None
  | String c s' =>
      match last_byte s' with
      | None => Some c
      | Some c' => Some c'
      end
  end.

Definition dquote : ascii := "034"%char.
Definition squote : ascii := "039"%char.
Definition newline : string := chr 10.
Definition dq : string := String dquote EmptyString.
Definition sq : string := String squote EmptyString.
Definition cat (parts : list string) : string :=
  fold_right String.append EmptyString parts.

End Str.

(** ** Python values *)

#[local] Set Warnings "-register-all".

Inductive pyval : Type :=
| PNone
| PBool (b : bool)
| PInt (n : Z)
| PFloat (bits : Z)                       (* an IEEE binary64, by its 64 bits *)
| PStr (s : string)
| PList (l : list pyval)
| PDict (d : list (string * pyval)).

(** Truth value of an object, as [if x] and [not x] take it. *)
Definition truthy (v : pyval) : bool :=
  match v with
  | PNone => false
  | PBool b => b
  | PInt n => negb (n =? 0)%Z
  | PFloat bits => negb (bits mod 2 ^ 63 =? 0)%Z
  | PStr s => negb (bool_decide (s = EmptyString))
  | PList l => negb (bool_decide (length l = 0%nat))
  | PDict d => negb (bool_decide (length d = 0%nat))
  end.

(** ** Dictionaries: insertion-ordered, one entry per key *)

Module Dict.
Section dict.
Context {V : Type}.
Abbreviation dict := (list (string * V)).

Fixpoint get (d : dict) (k : string) : option V :=
  match d with
  | [] => None
  | (k', v) :: d' => if decide (k' = k) then Some v else get d' k
  end.

Definition mem (k : string) (d : dict) : bool :=
  match get d k with Some _ => true | None => false end.

(** [d[k] = v]: an existing key keeps its place, a new one goes last. *)
Fixpoint set (k : string) (v : V) (d : dict) : dict :=
  match d with
  | [] => [(k, v)]
  | (k', v') :: d' =>
      if decide (k' = k) then (k, v) :: d' else (k', v') :: set k v d'
  end.

Definition keys (d : dict) : list string := fst <$> d.

(** A dict display [{k1: v1, k2: v2, ...}], entries evaluated left to right. *)
Definition lit (entries : list (string * V)) : dict :=
  fold_left (fun d e => set e.1 e.2 d) entries [].

(** [{**a, **b}]: the entries of [b] written over [a]. *)
Definition union (a b : dict) : dict :=
  fold_left (fun d e => set e.1 e.2 d) b a.

Definition restrict (ks : list string) (d : dict) : dict :=
  List.filter (fun e => bool_decide (e.1 ∈ ks)) d.
End dict.
End Dict.

Abbreviation dict := (list (string * pyval)).


(** ** Results, the outside world, and the monad of effectful code *)

Inductive result (A : Type) : Type :=
| Ok (a : A)
| Raise (msg : string).
Arguments Ok {A} a.
Arguments Raise {A} msg.

Inductive message : Type :=
| SystemMessage (content : string)
| HumanMessage (content : string).

(** [ChatOpenAI(model=..., temperature=..., api_key=...)] *)
Record ChatOpenAI : Type := {
  model : string;
  temperature : Z;
  api_key : string
}.

(** What the run leaves behind: the collaborator calls made, and for every
    graph node executed its snapshot of the state and the trace of its own
    execution. *)
Inductive event : Type :=
| EvModel (llm : ChatOpenAI) (messages : list message)
| EvSearch (query : pyval)
| EvMkdir (path : string)
| EvWrite (path : string) (text : string)
| EvNode (name : string) (snapshot : dict) (inner : list event).

Definition is_model_call (ev : event) : bool :=
  match ev with
  | EvModel _ _ => true
  | _ => false
  end.


(** The collaborators and library functions the code relies on.
    [chat_invoke] is [llm.invoke(messages).content], a [str];
    [simple_search] is [search_tools.simple_search]; [fs_mkdir] is
    [Path.mkdir(exist_ok=True, ...)]; [fs_write] is the [with open(..., 'w')]
    block writing the given text; [os_getenv] is [os.getenv]; [json_loads]
    is [json.loads]; [py_repr] is [str(x)] for an [x] that is not a [str];
    [str_upper] is [str.upper]; [module_dir] is [Path(__file__).parent];
    [persona] gives the prompt constants of [experts.group_1] to
    [experts.group_5] by name. *)
Class Env : Type := {
  World : Type;
  chat_invoke : ChatOpenAI -> list message -> World -> World * result string;
  simple_search : pyval -> World -> World * result pyval;
  fs_mkdir : string -> World -> World * result unit;
  fs_write : string -> string -> World -> World * result unit;
  os_getenv : string -> World -> option string;
  json_loads : string -> result pyval;
  py_repr : pyval -> string;
  str_upper : string -> string;
  module_dir : string;
  persona : string -> string
}.

Section Monad.
Context `{Env}.

Record Sys : Type := { world : World; trace : list event }.

Definition M (A : Type) : Type := Sys -> Sys * result A.

Definition ret {A} (a : A) : M A := fun s => (s, Ok a).
Definition raise {A} (msg : string) : M A := fun s => (s, Raise msg).
Definition bind {A B} (m : M A) (k : A -> M B) : M B :=
  fun s => match m s with
           | (s', Ok a) => k a s'
           | (s', Raise msg) => (s', Raise msg)
           end.
(** [try: m  except Exception as e: h(str(e))] *)
Definition try_except {A} (m : M A) (h : string -> M A) : M A :=
  fun s => match m s with
           | (s', Ok a) => (s', Ok a)
           | (s', Raise msg) => h msg s'
           end.
Definition lift {A} (r : result A) : M A := fun s => (s, r).

(** A collaborator call: it changes the world and is recorded. *)
Definition call {A} (ev : event) (f : World -> World * result A) : M A :=
  fun s => let (w, r) := f (world s) in
           ({| world := w; trace := trace s ++ [ev] |}, r).
End Monad.

Notation "x <- m ;; k" := (bind m (fun x => k))
  (at level 100, m at next level, right associativity).
Notation "m ;;; k" := (bind m (fun _ => k))
  (at level 100, right associativity).

Definition rbind {A B} (r : result A) (k : A -> result B) : result B :=
  match r with
  | Ok a => k a
  | Raise msg => Raise msg
  end.
Notation "x <-? r ;; k" := (rbind r (fun x => k))
  (at level 100, r at next level, right associativity).

(** [for x in l: acc = body(acc, x)] *)
Fixpoint for_each `{Env} {A S : Type} (l : list A) (body : S -> A -> M S) (acc : S)
  : M S :=
  match l with
  | [] => ret acc
  | x :: l' => acc' <- body acc x ;; for_each l' body acc'
  end.

(** ** The object protocol, as far as the code uses it *)

Section Objects.
Context `{Env}.

(** [str(v)], which is also how an f-string renders [{v}]. *)
Definition py_str (v : pyval) : string :=
  match v with
  | PStr s => s
  | _ => py_repr v
  end.

Definition type_name (v : pyval) : string :=
  match v with
  | PNone => "NoneType"
  | PBool _ => "bool"
  | PInt _ => "int"
  | PFloat _ => "float"
  | PStr _ => "str"
  | PList _ => "list"
  | PDict _ => "dict"
  end.

Definition no_attribute (v : pyval) (attr : string) : string :=
  Str.cat ["'"; type_name v; "' object has no attribute '"; attr; "'"].

(** [for x in v] *)
Definition py_iter (v : pyval) : result (list pyval) :=
  match v with
  | PList l => Ok l
  | PStr s => Ok (PStr <$> Str.chars s)
  | PDict d => Ok ((fun e => PStr e.1) <$> d)
  | _ => Raise (Str.cat ["'"; type_name v; "' object is not iterable"])
  end.

(** [v.get(k, default)] *)
Definition py_get (v : pyval) (k : string) (default : pyval) : result pyval :=
  match v with
  | PDict d => Ok (from_option id default (Dict.get d k))
  | _ => Raise (no_attribute v "get")
  end.

(** [v.items()] *)
Definition py_items (v : pyval) : result (list (string * pyval)) :=
  match v with
  | PDict d => Ok d
  | _ => Raise (no_attribute v "items")
  end.

(** [k in v] *)
Definition py_in (k : string) (v : pyval) : result bool :=
  match v with
  | PDict d => Ok (Dict.mem k d)
  | PStr s => Ok (Str.contains k s)
  | PList l =>
      Ok (existsb (fun e => match e with
                            | PStr s => bool_decide (s = k)
                            | _ => false
                            end) l)
  | _ => Raise (Str.cat ["argument of type '"; type_name v; "' is not iterable"])
  end.

(** [v[k]] for a [str] key [k] *)
Definition py_getitem (v : pyval) (k : string) : result pyval :=
  match v with
  | PDict d =>
      match Dict.get d k with
      | Some x => Ok x
      | None => Raise (py_repr (PStr k))
      end
  | PStr _ => Raise "string indices must be integers, not 'str'"
  | PList _ => Raise "list indices must be integers or slices, not str"
  | _ => Raise (Str.cat ["'"; type_name v; "' object is not subscriptable"])
  end.

(** [l[i]] on a list *)
Definition py_index {A} (l : list A) (i : nat) : result A :=
  match l !! i with
  | Some x => Ok x
  | None => Raise "list index out of range"
  end.

(** [state.get(k, default)] on the state, which is a [dict]. *)
Definition state_get (state : dict) (k : string) (default : pyval) : pyval :=
  from_option id default (Dict.get state k).

(** [a / b] on paths *)
Definition path_join (a b : string) : string := Str.cat [a; "/"; b].

End Objects.

(** ** agent_nodes.py *)

Section AgentNodes.
Context `{Env}.

Definition get_model : M ChatOpenAI :=
  fun s =>
    match os_getenv "OPENAI_API_KEY" (world s) with
    | Some key =>
        if bool_decide (key = EmptyString)
        then (s, Raise "No API key found for OpenAI")
        else (s, Ok {| model := "gpt-4o-mini"; temperature := 0%Z; api_key := key |})
    | None => (s, Raise "No API key found for OpenAI")
    end.

Definition query_generation_prompt (system_prompt : string) (question : pyval)
  (expert_name : string) : string :=
  Str.cat
    [ "
    ";
      system_prompt;
      "
    
    Your task is to generate 3-5 specific search queries that will help gather information to answer the following question from your expert perspective:
    
    QUESTION: ";
      py_str question;
      "
    
    INSTRUCTIONS:
    1. Consider what information you need as a ";
      expert_name;
      " to properly answer this question
    2. Create search queries that will find relevant, current information about the Vietnamese market
    3. Make your queries specific and focused
    4. Format your response as a JSON list of strings containing only the queries
    
    Format example:
    {
        ";
      Str.dq; "queries"; Str.dq;
      ": [
            ";
      Str.dq; "query 1"; Str.dq;
      ",
            ";
      Str.dq; "query 2"; Str.dq;
      ",
            ";
      Str.dq; "query 3"; Str.dq;
      "
        ]
    }
    " ].

(** The JSON portion of a response: the inside of the first fenced block
    when there is one, the whole content otherwise. *)
Definition json_portion (content : string) : result string :=
  if Str.contains "```json" content then
    after <-? py_index (Str.split "```json" content) 1 ;;
    inside <-? py_index (Str.split "```" after) 0 ;;
    Ok (Str.strip inside)
  else if Str.contains "```" content then
    after <-? py_index (Str.split "```" content) 1 ;;
    inside <-? py_index (Str.split "```" after) 0 ;;
    Ok (Str.strip inside)
  else Ok content.

(** The body of the [try] block of [generate_search_queries]. *)
Definition parse_queries (content : string) : result pyval :=
  json_str <-? json_portion content ;;
  queries_data <-? json_loads json_str ;;
  py_get queries_data "queries" (PList []).

Definition quoted_line (line : string) : bool :=
  Str.startswith Str.dq (Str.strip line) || Str.startswith Str.sq (Str.strip line).

Definition unquote_line (line : string) : string :=
  Str.strip_chars [","%char]
    (Str.strip_chars [Str.dquote; Str.squote] (Str.strip line)).

(** The [except] block of [generate_search_queries]. *)
Definition fallback_queries (content : string) : list string :=
  let queries :=
    fold_left
      (fun queries line =>
         if quoted_line line then queries ++ [unquote_line line] else queries)
      (Str.split Str.newline content) [] in
  take 5 queries.

Definition query_messages (system_prompt : string) (question : pyval)
  (expert_name : string) : list message :=
  [ SystemMessage "You are a helpful assistant that generates search queries.";
    HumanMessage (query_generation_prompt system_prompt question expert_name) ].

Definition generate_search_queries (llm : ChatOpenAI) (system_prompt : string)
  (question : pyval) (expert_name : string) : M pyval :=
  let messages := query_messages system_prompt question expert_name in
  content <- call (EvModel llm messages) (chat_invoke llm messages) ;;
  try_except
    (lift (parse_queries content))
    (fun _ => ret (PList (PStr <$> fallback_queries content))).

Definition perform_searches (queries : pyval) (expert_name : string)
  : M (list pyval) :=
  qs <- lift (py_iter queries) ;;
  for_each qs
    (fun all_results query =>
       try_except
         (results <- call (EvSearch query) (simple_search query) ;;
          items <- lift (py_iter results) ;;
          ret (all_results ++ items))
         (fun _ => ret all_results))
    [].

Definition compile_result (i : nat) (record : pyval) : result string :=
  title <-? py_get record "title" (PStr "No title") ;;
  link <-? py_get record "link" (PStr "No link") ;;
  snippet <-? py_get record "snippet" (PStr "No snippet") ;;
  Ok (Str.cat [ "Result "; pretty (i + 1)%nat; ":"; Str.newline;
                "Title: "; py_str title; Str.newline;
                "Link: "; py_str link; Str.newline;
                "Snippet: "; py_str snippet; Str.newline; Str.newline ]).

Fixpoint compile_from (i : nat) (results : list pyval) (compiled : string)
  : result string :=
  match results with
  | [] => Ok compiled
  | r :: rest =>
      block <-? compile_result i r ;;
      compile_from (S i) rest (compiled +:+ block)
  end.

Definition compile_search_results (results : list pyval) : result string :=
  compile_from 0 results (Str.cat ["SEARCH RESULTS:"; Str.newline; Str.newline]).

Definition analysis_prompt (system_prompt : string) (question : pyval)
  (search_results expert_name : string) : string :=
  Str.cat
    [ "
    ";
      system_prompt;
      "
    
    USER QUESTION:
    ";
      py_str question;
      "
    
    ";
      search_results;
      "
    
    INSTRUCTIONS:
    As a ";
      expert_name;
      ", provide a detailed analysis to answer the question based on:
    1. Your expert knowledge of the Vietnamese market
    2. The information from the search results
    
    Your analysis should:
    - Be thorough and insightful
    - Include specific recommendations where appropriate
    - Cite sources from the search results where possible
    - End with a ";
      Str.dq; "References"; Str.dq;
      " section listing your sources
    
    Format your response as a professional analysis report.
    " ].

Definition analyze_results (llm : ChatOpenAI) (system_prompt : string)
  (question : pyval) (search_results expert_name : string) : M string :=
  let messages :=
    [ SystemMessage "You are a financial expert specialized in the Vietnamese market.";
      HumanMessage (analysis_prompt system_prompt question search_results expert_name) ] in
  call (EvModel llm messages) (chat_invoke llm messages).

Definition save_expert_analysis (expert_name analysis : string) (question : pyval)
  : M unit :=
  let output_dir :=
    path_join (path_join module_dir "investment_strategies") "expert_responses" in
  call (EvMkdir output_dir) (fs_mkdir output_dir) ;;;
  let path := path_join output_dir (expert_name +:+ ".txt") in
  let text :=
    Str.cat [ "=== ANALYSIS FROM "; str_upper expert_name; " ==="; Str.newline; Str.newline;
              "Question: "; py_str question; Str.newline; Str.newline;
              analysis ] in
  call (EvWrite path text) (fs_write path text).

(** [f"question_{group_key[-1]}"], computed when the agent is created. *)
Definition question_key_of (group_key : string) : option string :=
  c ← Str.last_char group_key; Some ("question_" +:+ c).

(** The [try] block of [expert_analysis]. *)
Definition expert_analysis_body (system_prompt agent_name group_key question_key : string)
  (state : dict) : M dict :=
  let question := state_get state question_key (PStr EmptyString) in
  llm <- get_model ;;
  queries <- generate_search_queries llm system_prompt question agent_name ;;
  search_results <- perform_searches queries agent_name ;;
  compiled_results <- lift (compile_search_results search_results) ;;
  analysis <- analyze_results llm system_prompt question compiled_results agent_name ;;
  save_expert_analysis agent_name analysis question ;;;
  ret (Dict.lit
         [ (group_key, PDict (Dict.lit [(agent_name, PStr analysis)]));
           ("search_results",
            PDict (Dict.lit
                     [ (agent_name +:+ "_search",
                        PDict (Dict.lit [ ("queries", queries);
                                          ("results", PList search_results) ])) ])) ]).

(** The [except] block of [expert_analysis]. *)
Definition expert_analysis_error (agent_name group_key : string) (e : string) : dict :=
  Dict.lit
    [ (group_key, PDict (Dict.lit [(agent_name, PStr ("Error in analysis: " +:+ e))]));
      ("search_results",
       PDict (Dict.lit
                [ (agent_name +:+ "_search", PDict (Dict.lit [("error", PStr e)])) ])) ].

Definition expert_analysis (system_prompt agent_name group_key question_key : string)
  (state : dict) : M dict :=
  try_except
    (expert_analysis_body system_prompt agent_name group_key question_key state)
    (fun e => ret (expert_analysis_error agent_name group_key e)).

Definition create_expert_agent (system_prompt agent_name group_key : string)
  : option (dict -> M dict) :=
  question_key ← question_key_of group_key;
  Some (expert_analysis system_prompt agent_name group_key question_key).

End AgentNodes.

Section Nodes.
Context `{Env}.

(** A node created at import time; [create_expert_agent] fails on an empty
    group key with the IndexError of [group_key[-1]]. *)
Definition built (node : option (dict -> M dict)) : dict -> M dict :=
  from_option id (fun _ => raise "string index out of range") node.

(** Group 1: Market Analysis *)
Definition market_analyst_node :=
  built (create_expert_agent (persona "MARKET_ANALYST") "market_analyst" "group_1").
Definition technical_analyst_node :=
  built (create_expert_agent (persona "TECHNICAL_ANALYST") "technical_analyst" "group_1").
Definition fundamental_analyst_node :=
  built (create_expert_agent (persona "FUNDAMENTAL_ANALYST") "fundamental_analyst" "group_1").
Definition sentiment_analyst_node :=
  built (create_expert_agent (persona "SENTIMENT_ANALYST") "sentiment_analyst" "group_1").
Definition economic_indicators_node :=
  built (create_expert_agent (persona "ECONOMIC_INDICATORS_EXPERT")
           "economic_indicators_expert" "group_1").

(** Group 2: Financial Analysis *)
Definition financial_statement_node :=
  built (create_expert_agent (persona "FINANCIAL_STATEMENT_ANALYST")
           "financial_statement_analyst" "group_2").
Definition financial_ratio_node :=
  built (create_expert_agent (persona "FINANCIAL_RATIO_EXPERT") "financial_ratio_expert" "group_2").
Definition valuation_node :=
  built (create_expert_agent (persona "VALUATION_EXPERT") "valuation_expert" "group_2").
Definition cash_flow_node :=
  built (create_expert_agent (persona "CASH_FLOW_ANALYST") "cash_flow_analyst" "group_2").
Definition capital_structure_node :=
  built (create_expert_agent (persona "CAPITAL_STRUCTURE_EXPERT")
           "capital_structure_expert" "group_2").

(** Group 3: Sectoral Analysis *)
Definition banking_finance_node :=
  built (create_expert_agent (persona "BANKING_FINANCE_EXPERT") "banking_finance_expert" "group_3").
Definition real_estate_node :=
  built (create_expert_agent (persona "REAL_ESTATE_EXPERT") "real_estate_expert" "group_3").
Definition consumer_goods_node :=
  built (create_expert_agent (persona "CONSUMER_GOODS_EXPERT") "consumer_goods_expert" "group_3").
Definition industrial_node :=
  built (create_expert_agent (persona "INDUSTRIAL_EXPERT") "industrial_expert" "group_3").
Definition technology_node :=
  built (create_expert_agent (persona "TECHNOLOGY_EXPERT") "technology_expert" "group_3").

(** Group 4: External Factors *)
Definition global_markets_node :=
  built (create_expert_agent (persona "GLOBAL_MARKETS_EXPERT") "global_markets_expert" "group_4").
Definition geopolitical_risk_node :=
  built (create_expert_agent (persona "GEOPOLITICAL_RISK_ANALYST")
           "geopolitical_risk_analyst" "group_4").
Definition regulatory_framework_node :=
  built (create_expert_agent (persona "REGULATORY_FRAMEWORK_EXPERT")
           "regulatory_framework_expert" "group_4").
Definition monetary_policy_node :=
  built (create_expert_agent (persona "MONETARY_POLICY_EXPERT") "monetary_policy_expert" "group_4").
Definition demographic_trends_node :=
  built (create_expert_agent (persona "DEMOGRAPHIC_TRENDS_EXPERT")
           "demographic_trends_expert" "group_4").

(** Group 5: Strategy *)
Definition game_theory_node :=
  built (create_expert_agent (persona "GAME_THEORY_STRATEGIST") "game_theory_strategist" "group_5").
Definition risk_management_node :=
  built (create_expert_agent (persona "RISK_MANAGEMENT_EXPERT") "risk_management_expert" "group_5").
Definition portfolio_optimization_node :=
  built (create_expert_agent (persona "PORTFOLIO_OPTIMIZATION_EXPERT")
           "portfolio_optimization_expert" "group_5").
Definition asset_allocation_node :=
  built (create_expert_agent (persona "ASSET_ALLOCATION_STRATEGIST")
           "asset_allocation_strategist" "group_5").
Definition investment_psychology_node :=
  built (create_expert_agent (persona "INVESTMENT_PSYCHOLOGY_EXPERT")
           "investment_psychology_expert" "group_5").

Definition summary_prompt (group_name : string) (question : pyval)
  (expert_analyses search_info : string) : string :=
  Str.cat
    [ "
            You are a group coordinator for the ";
      group_name;
      " expert team.
            
            Your task is to create a comprehensive summary of the following expert analyses to answer this user question:
            
            USER QUESTION:
            ";
      py_str question;
      "
            
            EXPERT ANALYSES:
            ";
      expert_analyses;
      "
            
            SEARCH INFORMATION:
            ";
      search_info;
      "
            
            Create a thorough summary that:
            1. Highlights the key insights from all experts
            2. Identifies areas of consensus and important differences
            3. Directly answers the user's question
            4. Provides actionable investment recommendations
            5. Includes citations to sources where appropriate
            
            Format your response as a professional group analysis report.
            " ].

(** The analyses of the group, one section per entry of [state[group_key]]. *)
Definition format_expert_analyses (group_key : string) (state : dict) : result string :=
  if Dict.mem group_key state then
    group <-? py_getitem (PDict state) group_key ;;
    items <-? py_items group ;;
    Ok (fold_left
          (fun expert_analyses item =>
             expert_analyses +:+
             Str.cat [ "### Analysis from "; item.1; ":"; Str.newline;
                       py_str item.2; Str.newline; Str.newline ])
          items EmptyString)
  else Ok EmptyString.

(** The search queries of one expert, when the state has them. *)
Definition format_search_info (state : dict) (search_info expert : string)
  : result string :=
  let search_key := expert +:+ "_search" in
  present <-? py_in search_key (state_get state "search_results" (PDict [])) ;;
  if present : bool then
    all_searches <-? py_getitem (PDict state) "search_results" ;;
    search_data <-? py_getitem all_searches search_key ;;
    has_queries <-? py_in "queries" search_data ;;
    if has_queries : bool then
      queries <-? py_getitem search_data "queries" ;;
      qs <-? py_iter queries ;;
      Ok (fold_left
            (fun search_info query =>
               search_info +:+ Str.cat ["- "; py_str query; Str.newline])
            qs
            (search_info +:+
             Str.cat [Str.newline; "### Search queries from "; expert; ":"; Str.newline]))
    else Ok search_info
  else Ok search_info.

Fixpoint format_all_search_info (state : dict) (expert_names : list string)
  (search_info : string) : result string :=
  match expert_names with
  | [] => Ok search_info
  | expert :: rest =>
      search_info' <-? format_search_info state search_info expert ;;
      format_all_search_info state rest search_info'
  end.

Definition clean_group_name (group_name : string) : result string :=
  if Str.contains "(" group_name then
    head <-? py_index (Str.split "(" group_name) 0 ;;
    Ok (Str.strip head)
  else Ok group_name.

(** The [try] block of [summarize_group]. *)
Definition summarize_group_body (group_name : string) (expert_names : list string)
  (group_key question_key : string) (state : dict) : M dict :=
  expert_analyses <- lift (format_expert_analyses group_key state) ;;
  search_info <- lift (format_all_search_info state expert_names EmptyString) ;;
  let question := state_get state question_key (PStr "No question provided") in
  llm <- get_model ;;
  let messages :=
    [ SystemMessage "You are a financial analysis coordinator.";
      HumanMessage (summary_prompt group_name question expert_analyses search_info) ] in
  summary <- call (EvModel llm messages) (chat_invoke llm messages) ;;
  let output_dir :=
    path_join (path_join module_dir "investment_strategies") "group_responses" in
  call (EvMkdir output_dir) (fs_mkdir output_dir) ;;;
  clean <- lift (clean_group_name group_name) ;;
  let path := path_join output_dir (clean +:+ ".txt") in
  let text :=
    Str.cat [ "=== GROUP SUMMARY: "; str_upper clean; " ==="; Str.newline; Str.newline;
              "Question: "; py_str question; Str.newline; Str.newline;
              summary ] in
  call (EvWrite path text) (fs_write path text) ;;;
  ret (Dict.lit [("group_summaries", PDict (Dict.lit [(group_name, PStr summary)]))]).

(** The [except] block of [summarize_group]. *)
Definition summarize_group_error (group_name : string) (e : string) : dict :=
  Dict.lit
    [("group_summaries", PDict (Dict.lit [(group_name, PStr ("Error in summary: " +:+ e))]))].

Definition summarize_group (group_name : string) (expert_names : list string)
  (group_key question_key : string) (state : dict) : M dict :=
  try_except
    (summarize_group_body group_name expert_names group_key question_key state)
    (fun e => ret (summarize_group_error group_name e)).

Definition create_group_summarizer (group_name : string) (expert_names : list string)
  (group_key : string) : option (dict -> M dict) :=
  question_key ← question_key_of group_key;
  Some (summarize_group group_name expert_names group_key question_key).

Definition market_analysis_name : string := "Phân tích Thị trường (Market Analysis)".
Definition financial_analysis_name : string := "Phân tích Tài chính (Financial Analysis)".
Definition sectoral_analysis_name : string := "Phân tích Ngành (Sectoral Analysis)".
Definition external_factors_name : string := "Yếu tố Bên ngoài (External Factors)".
Definition strategy_name : string := "Lập chiến lược (Strategy)".

Definition market_analysis_group_summarizer :=
  built (create_group_summarizer market_analysis_name
           [ "market_analyst"; "technical_analyst"; "fundamental_analyst";
             "sentiment_analyst"; "economic_indicators_expert" ]
           "group_1").
Definition financial_analysis_group_summarizer :=
  built (create_group_summarizer financial_analysis_name
           [ "financial_statement_analyst"; "financial_ratio_expert"; "valuation_expert";
             "cash_flow_analyst"; "capital_structure_expert" ]
           "group_2").
Definition sectoral_analysis_group_summarizer :=
  built (create_group_summarizer sectoral_analysis_name
           [ "banking_finance_expert"; "real_estate_expert"; "consumer_goods_expert";
             "industrial_expert"; "technology_expert" ]
           "group_3").
Definition external_factors_group_summarizer :=
  built (create_group_summarizer external_factors_name
           [ "global_markets_expert"; "geopolitical_risk_analyst";
             "regulatory_framework_expert"; "monetary_policy_expert";
             "demographic_trends_expert" ]
           "group_4").
Definition strategy_group_summarizer :=
  built (create_group_summarizer strategy_name
           [ "game_theory_strategist"; "risk_management_expert";
             "portfolio_optimization_expert"; "asset_allocation_strategist";
             "investment_psychology_expert" ]
           "group_5").

Definition format_group_summaries (state : dict) : result string :=
  items <-? py_items (state_get state "group_summaries" (PDict [])) ;;
  Ok (fold_left
        (fun group_summaries_text item =>
           group_summaries_text +:+
           Str.cat [ "### Summary from "; item.1; ":"; Str.newline;
                     py_str item.2; Str.newline; Str.newline ])
        items EmptyString).

(** [for i in range(...)]: the first copy that is in the state and true. *)
Fixpoint first_question_copy (state : dict) (range : list nat) : option pyval :=
  match range with
  | [] => None
  | i :: rest =>
      let question_key := "question_" +:+ pretty i in
      match Dict.get state question_key with
      | Some v => if truthy v then Some v else first_question_copy state rest
      | None => first_question_copy state rest
      end
  end.

Definition select_question (state : dict) : pyval :=
  let question := state_get state "question" (PStr EmptyString) in
  let question :=
    if truthy question then question
    else from_option id question (first_question_copy state (seq 1 5)) in
  if truthy question then question else PStr "No question provided".

Definition synthesis_prompt (question : pyval) (group_summaries_text : string) : string :=
  Str.cat
    [ "
        You are a chief investment strategist specialized in the Vietnamese market.
        
        Your task is to create a comprehensive investment strategy based on the following group summaries:
        
        USER QUESTION:
        ";
      py_str question;
      "
        
        GROUP SUMMARIES:
        ";
      group_summaries_text;
      "
        
        Create a detailed investment strategy that:
        1. Directly answers the user's question
        2. Provides a market analysis and current trends
        3. Includes a strategic asset allocation recommendation
        4. Recommends specific sectors and stocks
        5. Advises on market entry timing
        6. Includes a risk management plan
        7. Provides specific actionable steps for investors
        
        Format your response as a professional investment strategy report with clear sections.
        " ].

Definition synthesis_messages (question : pyval) (group_summaries_text : string)
  : list message :=
  [ SystemMessage "You are a chief investment strategist for the Vietnamese market.";
    HumanMessage (synthesis_prompt question group_summaries_text) ].

Definition final_report_dir : string := path_join module_dir "investment_strategies".

(** What is written to final_investment_strategy.txt. *)
Definition final_report_text (question : pyval) (final_report : string) : string :=
  Str.cat [ "=== OPTIMAL INVESTMENT STRATEGY ==="; Str.newline; Str.newline;
            "Question: "; py_str question; Str.newline; Str.newline;
            final_report ].

(** The [try] block of [final_synthesizer]. *)
Definition final_synthesizer_body (state : dict) : M dict :=
  group_summaries_text <- lift (format_group_summaries state) ;;
  let question := select_question state in
  llm <- get_model ;;
  let messages := synthesis_messages question group_summaries_text in
  final_report <- call (EvModel llm messages) (chat_invoke llm messages) ;;
  let output_dir := final_report_dir in
  call (EvMkdir output_dir) (fs_mkdir output_dir) ;;;
  let path := path_join output_dir "final_investment_strategy.txt" in
  let text := final_report_text question final_report in
  call (EvWrite path text) (fs_write path text) ;;;
  ret (Dict.lit [("final_report", PStr final_report)]).

Definition final_synthesizer (state : dict) : M dict :=
  try_except
    (final_synthesizer_body state)
    (fun e => ret (Dict.lit [("final_report", PStr ("Error in final synthesis: " +:+ e))])).

End Nodes.

(** ** The state schema *)

(** A TypedDict: its fields in order, each with the metadata of its
    [Annotated] type, if any. *)
Definition TypedDict : Type := list (string * option string).

Definition InputState : TypedDict :=
  [ ("question", Some "merge") ].

Definition OutputState : TypedDict :=
  [ ("question_1", Some "merge");
    ("question_2", Some "merge");
    ("question_3", Some "merge");
    ("question_4", Some "merge");
    ("question_5", Some "merge");
    ("analyses", Some "merge");
    ("group_1", Some "merge");
    ("group_2", Some "merge");
    ("group_3", Some "merge");
    ("group_4", Some "merge");
    ("group_5", Some "merge");
    ("group_summaries", Some "merge");
    ("final_report", None);
    ("search_results", Some "merge") ].

(** [class AgentState(InputState, OutputState)] *)
Definition AgentState : TypedDict := InputState ++ OutputState.

(** ** The graph library, as far as group_agents.py uses it *)

Section Graphs.
Context `{Env}.

(** The library constants [START] and [END]. *)
Definition START : string := "__start__".
Definition END : string := "__end__".

(** Modelled from the spec: the task-graph description of section 9, nodes
    and directed edges; [StateGraph(schema, input=..., output=...)] with
    what [add_node] and [add_edge] have recorded in it so far. *)
Record StateGraph : Type := {
  schema : TypedDict;
  input_schema : TypedDict;
  output_schema : TypedDict;
  nodes : list (string * (dict -> M dict));
  edges : list (string * string)
}.

Definition new_StateGraph (state_schema input output : TypedDict) : StateGraph :=
  {| schema := state_schema; input_schema := input; output_schema := output;
     nodes := []; edges := [] |}.

Definition add_node (name : string) (node : dict -> M dict) (workflow : StateGraph)
  : StateGraph :=
  {| schema := schema workflow; input_schema := input_schema workflow;
     output_schema := output_schema workflow;
     nodes := nodes workflow ++ [(name, node)]; edges := edges workflow |}.

Definition add_edge (start_key end_key : string) (workflow : StateGraph) : StateGraph :=
  {| schema := schema workflow; input_schema := input_schema workflow;
     output_schema := output_schema workflow;
     nodes := nodes workflow; edges := edges workflow ++ [(start_key, end_key)] |}.

(** Modelled from the spec: the graph-execution engine behind
    [workflow.compile()], an external library whose code is not part of the
    sources.  Three things are taken from the spec.  The merge of a node's
    contribution into the run state (section 3): a mapping field is merged
    by key union, any other field takes the value written; a key that is not
    a field of the run state is not recorded.  The schedule (sections 4.4
    and 9): a node is ready once all the nodes with an edge into it have
    completed; the ready nodes all read the same snapshot of the state and
    their contributions are merged when they have completed.  Nodes that are
    ready together are run here in the order they were added.  The
    invocation surface (section 6): the run starts from the input fields and
    returns the output fields.  [merge_field] is the merge of one field. *)
Definition merge_field (annotation : option string) (old : option pyval) (new : pyval)
  : pyval :=
  match annotation, old, new with
  | Some _, Some (PDict a), PDict b => PDict (Dict.union a b)
  | _, _, _ => new
  end.

(** Modelled from the spec: the engine's merge of one contribution into the
    run state, field by field. *)
Definition apply_update (fields : TypedDict) (state update : dict) : dict :=
  fold_left
    (fun st e =>
       match Dict.get fields e.1 with
       | Some annotation => Dict.set e.1 (merge_field annotation (Dict.get st e.1) e.2) st
       | None => st
       end)
    update state.

(** Modelled from the spec: the engine's view of the edges into a node. *)
Definition predecessors (g : StateGraph) (name : string) : list string :=
  fst <$> List.filter (fun e => bool_decide (e.2 = name)) (edges g).

(** Modelled from the spec: the engine's readiness test, all predecessors
    completed and the node not yet run. *)
Definition is_ready (g : StateGraph) (finished : list string) (name : string) : bool :=
  let preds := predecessors g name in
  negb (bool_decide (name ∈ finished))
  && negb (bool_decide (preds = []))
  && forallb (fun p => bool_decide (p = START) || bool_decide (p ∈ finished)) preds.

(** Modelled from the spec: the engine's choice of the nodes to run next. *)
Definition ready (g : StateGraph) (finished : list string)
  : list (string * (dict -> M dict)) :=
  List.filter (fun nd => is_ready g finished nd.1) (nodes g).

(** Modelled from the spec: the engine running one node on its snapshot;
    what the node did is recorded under its name. *)
Definition run_node (name : string) (node : dict -> M dict) (snapshot : dict) : M dict :=
  fun s =>
    let (s', r) := node snapshot {| world := world s; trace := [] |} in
    ({| world := world s'; trace := trace s ++ [EvNode name snapshot (trace s')] |}, r).

(** Modelled from the spec: the engine running the ready nodes, all on the
    same snapshot. *)
Fixpoint run_ready (rs : list (string * (dict -> M dict))) (snapshot : dict)
  : M (list dict) :=
  match rs with
  | [] => ret []
  | nd :: rest =>
      update <- run_node nd.1 nd.2 snapshot ;;
      updates <- run_ready rest snapshot ;;
      ret (update :: updates)
  end.

(** Modelled from the spec: the engine's loop, a round of ready nodes and
    the merge of their contributions, until no node is ready. *)
Fixpoint run_loop (fuel : nat) (g : StateGraph) (finished : list string) (state : dict)
  : M dict :=
  match fuel with
  | O => ret state
  | S fuel' =>
      match ready g finished with
      | [] => ret state
      | rs =>
          updates <- run_ready rs state ;;
          run_loop fuel' g (finished ++ (fst <$> rs))
            (fold_left (apply_update (schema g)) updates state)
      end
  end.

(** Modelled from the spec: [workflow.compile()] followed by [invoke]; a
    compiled graph is used as the function from an input to the run on it. *)
Definition compile (workflow : StateGraph) (input : dict) : M dict :=
  final <- run_loop (length (nodes workflow)) workflow []
             (Dict.restrict (Dict.keys (input_schema workflow)) input) ;;
  ret (Dict.restrict (Dict.keys (output_schema workflow)) final).

(** ** group_agents.py *)

(** [l[i]], in range wherever the code below indexes. *)
Definition item (l : list string) (i : nat) : string := default EmptyString (l !! i).

(** The graph [create_expert_group_graph] builds, before [compile]. *)
Definition expert_group_workflow (group_name : string)
  (expert_nodes : list (dict -> M dict)) (summarizer_node : dict -> M dict)
  : StateGraph :=
  let workflow := new_StateGraph AgentState AgentState AgentState in
  let expert_names :=
    (fun i : nat => "expert_" +:+ pretty i) <$> seq 0 (length expert_nodes) in
  let workflow :=
    fold_left (fun w ie => add_node (item expert_names ie.1) ie.2 w)
      (zip (seq 0 (length expert_nodes)) expert_nodes) workflow in
  let summarizer_name := group_name +:+ "_summarizer" in
  let workflow := add_node summarizer_name summarizer_node workflow in
  let workflow :=
    match expert_names with
    | _ :: _ =>
        let workflow := add_edge START (item expert_names 0) workflow in
        let workflow :=
          fold_left
            (fun w i => add_edge (item expert_names i) (item expert_names (i + 1)) w)
            (seq 0 (length expert_names - 1)) workflow in
        add_edge (item expert_names (length expert_names - 1)) summarizer_name workflow
    | [] => add_edge START summarizer_name workflow
    end in
  add_edge summarizer_name END workflow.

(** The node names [create_expert_group_graph] gives to [n] experts. *)
Definition expert_names (n : nat) : list string :=
  (fun i : nat => "expert_" +:+ pretty i) <$> seq 0 n.

(** The edges of the path that visits the given nodes in order. *)
Definition path_edges (path : list string) : list (string * string) :=
  zip path (tail path).

(** The given nodes run one after the other: each reads the state the
    previous one left, and its contribution is merged before the next one
    starts. *)
Fixpoint run_in_order (fields : TypedDict) (nds : list (string * (dict -> M dict)))
  (state : dict) : M dict :=
  match nds with
  | [] => ret state
  | nd :: rest =>
      update <- run_node nd.1 nd.2 state ;;
      run_in_order fields rest (apply_update fields state update)
  end.

Definition create_expert_group_graph (group_name : string)
  (expert_nodes : list (dict -> M dict)) (summarizer_node : dict -> M dict)
  : dict -> M dict :=
  compile (expert_group_workflow group_name expert_nodes summarizer_node).

Definition market_analysis_group_graph :=
  create_expert_group_graph "market_analysis"
    [ market_analyst_node; technical_analyst_node; fundamental_analyst_node;
      sentiment_analyst_node; economic_indicators_node ]
    market_analysis_group_summarizer.

Definition financial_analysis_group_graph :=
  create_expert_group_graph "financial_analysis"
    [ financial_statement_node; financial_ratio_node; valuation_node;
      cash_flow_node; capital_structure_node ]
    financial_analysis_group_summarizer.

Definition sectoral_analysis_group_graph :=
  create_expert_group_graph "sectoral_analysis"
    [ banking_finance_node; real_estate_node; consumer_goods_node;
      industrial_node; technology_node ]
    sectoral_analysis_group_summarizer.

Definition external_factors_group_graph :=
  create_expert_group_graph "external_factors"
    [ global_markets_node; geopolitical_risk_node; regulatory_framework_node;
      monetary_policy_node; demographic_trends_node ]
    external_factors_group_summarizer.

Definition strategy_group_graph :=
  create_expert_group_graph "strategy"
    [ game_theory_node; risk_management_node; portfolio_optimization_node;
      asset_allocation_node; investment_psychology_node ]
    strategy_group_summarizer.

Definition initializer (state : dict) : M dict :=
  let original_question := state_get state "question" (PStr EmptyString) in
  ret (Dict.lit
         [ ("question_1", original_question);
           ("question_2", original_question);
           ("question_3", original_question);
           ("question_4", original_question);
           ("question_5", original_question) ]).

Definition join_node (state : dict) : M dict := ret (Dict.lit []).

(** The graph [create_main_graph] builds, before [compile]. *)
Definition main_workflow : StateGraph :=
  let main_workflow := new_StateGraph AgentState InputState OutputState in
  let main_workflow := add_node "initializer" initializer main_workflow in
  let main_workflow := add_node "market_analysis_group" market_analysis_group_graph main_workflow in
  let main_workflow := add_node "financial_analysis_group" financial_analysis_group_graph main_workflow in
  let main_workflow := add_node "sectoral_analysis_group" sectoral_analysis_group_graph main_workflow in
  let main_workflow := add_node "external_factors_group" external_factors_group_graph main_workflow in
  let main_workflow := add_node "strategy_group" strategy_group_graph main_workflow in
  let main_workflow := add_node "final_synthesis" final_synthesizer main_workflow in
  let main_workflow := add_edge START "initializer" main_workflow in
  let main_workflow := add_edge "initializer" "market_analysis_group" main_workflow in
  let main_workflow := add_edge "initializer" "financial_analysis_group" main_workflow in
  let main_workflow := add_edge "initializer" "sectoral_analysis_group" main_workflow in
  let main_workflow := add_edge "initializer" "external_factors_group" main_workflow in
  let main_workflow := add_node "join" join_node main_workflow in
  let main_workflow := add_edge "market_analysis_group" "join" main_workflow in
  let main_workflow := add_edge "financial_analysis_group" "join" main_workflow in
  let main_workflow := add_edge "sectoral_analysis_group" "join" main_workflow in
  let main_workflow := add_edge "external_factors_group" "join" main_workflow in
  let main_workflow := add_edge "join" "strategy_group" main_workflow in
  let main_workflow := add_edge "strategy_group" "final_synthesis" main_workflow in
  add_edge "final_synthesis" END main_workflow.

Definition create_main_graph : dict -> M dict := compile main_workflow.

Definition main_graph : dict -> M dict := create_main_graph.

End Graphs.

(** ** What a run leaves in the state *)

(** The experts of each group as [create_expert_agent] is called for them:
    the prompt constant and the agent name, in the order of the group's
    graph. *)
Definition market_experts : list (string * string) :=
  [ ("MARKET_ANALYST", "market_analyst");
    ("TECHNICAL_ANALYST", "technical_analyst");
    ("FUNDAMENTAL_ANALYST", "fundamental_analyst");
    ("SENTIMENT_ANALYST", "sentiment_analyst");
    ("ECONOMIC_INDICATORS_EXPERT", "economic_indicators_expert") ].

Definition financial_experts : list (string * string) :=
  [ ("FINANCIAL_STATEMENT_ANALYST", "financial_statement_analyst");
    ("FINANCIAL_RATIO_EXPERT", "financial_ratio_expert");
    ("VALUATION_EXPERT", "valuation_expert");
    ("CASH_FLOW_ANALYST", "cash_flow_analyst");
    ("CAPITAL_STRUCTURE_EXPERT", "capital_structure_expert") ].

Definition sectoral_experts : list (string * string) :=
  [ ("BANKING_FINANCE_EXPERT", "banking_finance_expert");
    ("REAL_ESTATE_EXPERT", "real_estate_expert");
    ("CONSUMER_GOODS_EXPERT", "consumer_goods_expert");
    ("INDUSTRIAL_EXPERT", "industrial_expert");
    ("TECHNOLOGY_EXPERT", "technology_expert") ].

Definition external_experts : list (string * string) :=
  [ ("GLOBAL_MARKETS_EXPERT", "global_markets_expert");
    ("GEOPOLITICAL_RISK_ANALYST", "geopolitical_risk_analyst");
    ("REGULATORY_FRAMEWORK_EXPERT", "regulatory_framework_expert");
    ("MONETARY_POLICY_EXPERT", "monetary_policy_expert");
    ("DEMOGRAPHIC_TRENDS_EXPERT", "demographic_trends_expert") ].

Definition strategy_experts : list (string * string) :=
  [ ("GAME_THEORY_STRATEGIST", "game_theory_strategist");
    ("RISK_MANAGEMENT_EXPERT", "risk_management_expert");
    ("PORTFOLIO_OPTIMIZATION_EXPERT", "portfolio_optimization_expert");
    ("ASSET_ALLOCATION_STRATEGIST", "asset_allocation_strategist");
    ("INVESTMENT_PSYCHOLOGY_EXPERT", "investment_psychology_expert") ].

(** The expert names of each group key. *)
Definition group_expert_names : list (string * list string) :=
  [ ("group_1", snd <$> market_experts);
    ("group_2", snd <$> financial_experts);
    ("group_3", snd <$> sectoral_experts);
    ("group_4", snd <$> external_experts);
    ("group_5", snd <$> strategy_experts) ].

(** The contribution of an expert task whose analysis text and search entry
    are given, and the contribution of a summarizer whose summary is given. *)
Definition expert_update (group_key agent_name text : string) (entry : pyval) : dict :=
  [ (group_key, PDict [(agent_name, PStr text)]);
    ("search_results", PDict [(agent_name +:+ "_search", entry)]) ].

Definition summary_update (group_name text : string) : dict :=
  [ ("group_summaries", PDict [(group_name, PStr text)]) ].

(** What the tasks of one group produced in a run: for each expert its
    analysis text and search entry, and the summary. *)
Record group_outcome : Type := {
  analyses : list (string * pyval);
  summary : string
}.

Definition group_updates (group_key : string) (agent_names : list string)
  (group_name : string) (o : group_outcome) : list dict :=
  zip_with (fun an te => expert_update group_key an te.1 te.2) agent_names (analyses o)
  ++ [summary_update group_name (summary o)].

(** The state a group graph returns on [input] when its tasks produced [o]. *)
Definition group_result (group_key : string) (agent_names : list string)
  (group_name : string) (o : group_outcome) (input : dict) : dict :=
  Dict.restrict (Dict.keys AgentState)
    (fold_left (apply_update AgentState)
       (group_updates group_key agent_names group_name o)
       (Dict.restrict (Dict.keys AgentState) input)).

(** The state of the main run after each round, for a question text and the
    outcomes of the five groups. *)
Definition question_copies (question : string) : dict :=
  [ ("question_1", PStr question);
    ("question_2", PStr question);
    ("question_3", PStr question);
    ("question_4", PStr question);
    ("question_5", PStr question) ].

Definition after_initializer (question : string) : dict :=
  apply_update AgentState [("question", PStr question)] (question_copies question).

Definition after_groups (question : string) (o1 o2 o3 o4 : group_outcome) : dict :=
  let st := after_initializer question in
  fold_left (apply_update AgentState)
    [ group_result "group_1" (snd <$> market_experts) market_analysis_name o1 st;
      group_result "group_2" (snd <$> financial_experts) financial_analysis_name o2 st;
      group_result "group_3" (snd <$> sectoral_experts) sectoral_analysis_name o3 st;
      group_result "group_4" (snd <$> external_experts) external_factors_name o4 st ]
    st.

Definition after_strategy (question : string) (o1 o2 o3 o4 o5 : group_outcome) : dict :=
  let st := after_groups question o1 o2 o3 o4 in
  apply_update AgentState st
    (group_result "group_5" (snd <$> strategy_experts) strategy_name o5 st).

Definition main_output (question : string) (o1 o2 o3 o4 o5 : group_outcome)
  (final_report : string) : dict :=
  Dict.restrict (Dict.keys OutputState)
    (apply_update AgentState (after_strategy question o1 o2 o3 o4 o5)
       [("final_report", PStr final_report)]).

(** The keys of a mapping field of a state, in order; none when the field
    is absent or does not hold a mapping. *)
Definition field_keys (state : dict) (field : string) : list string :=
  match Dict.get state field with
  | Some (PDict d) => Dict.keys d
  | _ => []
  end.


(** ** A concrete environment for worked examples *)

Module Demo.

Definition is_json_ws (c : ascii) : bool :=
  bool_decide (c ∈ [" "%char; "009"%char; "010"%char; "013"%char]).

Fixpoint skip_ws (s : string) : string :=
  match s with
  | String c s' => if is_json_ws c then skip_ws s' else s
  | EmptyString => s
  end.

(** The text of a JSON string without escapes, up to its closing quote. *)
Fixpoint read_string (s : string) (acc : string) : option (string * string) :=
  match s with
  | EmptyString => None
  | String c s' =>
      if decide (c = Str.dquote) then Some (acc, s')
      else if decide (c = "\"%char) then None
      else read_string s' (acc +:+ String c EmptyString)
  end.

Fixpoint read_digits (s : string) (acc : Z) : Z * string :=
  match s with
  | String c s' =>
      match Ascii.is_nat c with
      | Some d => read_digits s' (10 * acc + Z.of_nat d)%Z
      | None => (acc, s)
      end
  | EmptyString => (acc, s)
  end.

(** A decoder for the JSON of the prompt's format example: objects, arrays,
    strings without escapes, unsigned integers, [true], [false] and [null]. *)
Fixpoint parse_value (fuel : nat) (s : string) : option (pyval * string) :=
  match fuel with
  | O => None
  | S fuel' =>
      match skip_ws s with
      | EmptyString => None
      | String c rest =>
          if decide (c = Str.dquote) then
            match read_string rest EmptyString with
            | Some (str, rest') => Some (PStr str, rest')
            | None => None
            end
          else if decide (c = "["%char) then
            match skip_ws rest with
            | String "]" rest' => Some (PList [], rest')
            | _ => parse_elements fuel' rest []
            end
          else if decide (c = "{"%char) then
            match skip_ws rest with
            | String "}" rest' => Some (PDict [], rest')
            | _ => parse_members fuel' rest []
            end
          else if Str.startswith "true" (String c rest) then
            Some (PBool true, Str.drop 4 (String c rest))
          else if Str.startswith "false" (String c rest) then
            Some (PBool false, Str.drop 5 (String c rest))
          else if Str.startswith "null" (String c rest) then
            Some (PNone, Str.drop 4 (String c rest))
          else
            match Ascii.is_nat c with
            | Some _ => let (n, rest') := read_digits (String c rest) 0%Z in
                        Some (PInt n, rest')
            | None => None
            end
      end
  end
with parse_elements (fuel : nat) (s : string) (acc : list pyval)
  : option (pyval * string) :=
  match fuel with
  | O => None
  | S fuel' =>
      match parse_value fuel' s with
      | Some (v, rest) =>
          match skip_ws rest with
          | String "," rest' => parse_elements fuel' rest' (acc ++ [v])
          | String "]" rest' => Some (PList (acc ++ [v]), rest')
          | _ => None
          end
      | None => None
      end
  end
with parse_members (fuel : nat) (s : string) (acc : dict)
  : option (pyval * string) :=
  match fuel with
  | O => None
  | S fuel' =>
      match skip_ws s with
      | String c rest =>
          if decide (c = Str.dquote) then
            match read_string rest EmptyString with
            | Some (key, rest1) =>
                match skip_ws rest1 with
                | String ":" rest2 =>
                    match parse_value fuel' rest2 with
                    | Some (v, rest3) =>
                        match skip_ws rest3 with
                        | String "," rest4 => parse_members fuel' rest4 (Dict.set key v acc)
                        | String "}" rest4 => Some (PDict (Dict.set key v acc), rest4)
                        | _ => None
                        end
                    | None => None
                    end
                | _ => None
                end
            | None => None
            end
          else None
      | EmptyString => None
      end
  end.

Definition loads (s : string) : result pyval :=
  match parse_value (2 * String.length s + 4) s with
  | Some (v, rest) =>
      match skip_ws rest with
      | EmptyString => Ok v
      | _ => Raise "Extra data"
      end
  | None => Raise "Expecting value"
  end.

Definition upper_char (c : ascii) : ascii :=
  let n := nat_of_ascii c in
  if (Nat.leb 97 n && Nat.leb n 122)%bool then ascii_of_nat (n - 32) else c.

Fixpoint upper (s : string) : string :=
  match s with
  | String c s' => String (upper_char c) (upper s')
  | EmptyString => EmptyString
  end.

(** The behaviour of the collaborators in an example: what the model
    answers to the query-generation prompt and to every other prompt, what
    each search returns, whether the disk accepts writes, and the API key. *)
Record scenario : Type := {
  queries_reply : result string;
  other_reply : result string;
  search_reply : result pyval;
  write_reply : result unit;
  key : option string
}.

Definition query_request (messages : list message) : bool :=
  match messages with
  | SystemMessage s :: _ =>
      bool_decide (s = "You are a helpful assistant that generates search queries.")
  | _ => false
  end.

Definition env (sc : scenario) : Env :=
  {| World := unit;
     chat_invoke := fun _ messages w =>
       (w, if query_request messages then queries_reply sc else other_reply sc);
     simple_search := fun _ w => (w, search_reply sc);
     fs_mkdir := fun _ w => (w, Ok tt);
     fs_write := fun _ _ w => (w, write_reply sc);
     os_getenv := fun name _ =>
       if bool_decide (name = "OPENAI_API_KEY") then key sc else None;
     json_loads := loads;
     py_repr := fun _ => "<object>";
     str_upper := upper;
     module_dir := "agents";
     persona := fun name => name |}.

Definition sys0 (sc : scenario) : @Sys (env sc) := @Build_Sys (env sc) tt [].

(** [sep.join(parts)] *)
Fixpoint join (sep : string) (parts : list string) : string :=
  match parts with
  | [] => EmptyString
  | [p] => p
  | p :: rest => p +:+ sep +:+ join sep rest
  end.

(** The JSON text of an object whose queries entry lists the given texts. *)
Definition queries_json (qs : list string) : string :=
  Str.cat [ "{"; Str.dq; "queries"; Str.dq; ": [";
            join ", " ((fun q => Str.cat [Str.dq; q; Str.dq]) <$> qs);
            "]}" ].

Definition two_queries : string :=
  queries_json ["vietnam bank stocks 2024"; "VN-Index outlook"].

Definition six_queries : string :=
  queries_json ["q1"; "q2"; "q3"; "q4"; "q5"; "q6"].

Definition fenced_json (body : string) : string :=
  Str.cat ["```json"; Str.newline; body; Str.newline; "```"].

Definition fenced_plain (body : string) : string :=
  Str.cat ["Here you go:"; Str.newline; "```"; Str.newline; body; Str.newline; "```"].

(** A reply that is not JSON but lists the queries as the format example
    of the prompt does, one quoted string per line. *)
Definition listed_queries : string :=
  Str.cat [ "Here are the queries:"; Str.newline;
            "    "; Str.dq; "vietnam bank stocks 2024"; Str.dq; ","; Str.newline;
            "    "; Str.dq; "VN-Index outlook"; Str.dq ].

Definition one_record : pyval :=
  PList [PDict [("title", PStr "Banks"); ("link", PStr "https://example.org")]].

Definition nominal : scenario :=
  {| queries_reply := Ok (fenced_json two_queries);
     other_reply := Ok "ANALYSIS";
     search_reply := Ok one_record;
     write_reply := Ok tt;
     key := Some "sk-test" |}.

Definition no_key : scenario :=
  {| queries_reply := Ok (fenced_json two_queries);
     other_reply := Ok "ANALYSIS";
     search_reply := Ok one_record;
     write_reply := Ok tt;
     key := None |}.

Definition disk_full : scenario :=
  {| queries_reply := Ok two_queries;
     other_reply := Ok "ANALYSIS";
     search_reply := Ok one_record;
     write_reply := Raise "[Errno 28] No space left on device";
     key := Some "sk-test" |}.

Definition many_queries : scenario :=
  {| queries_reply := Ok six_queries;
     other_reply := Ok "ANALYSIS";
     search_reply := Ok (PList []);
     write_reply := Ok tt;
     key := Some "sk-test" |}.

Definition malformed : scenario :=
  {| queries_reply := Ok listed_queries;
     other_reply := Ok "ANALYSIS";
     search_reply := Ok one_record;
     write_reply := Ok tt;
     key := Some "sk-test" |}.

(** The model answers with an object whose queries entry is null. *)
Definition null_queries : scenario :=
  {| queries_reply := Ok (Str.cat ["{"; Str.dq; "queries"; Str.dq; ": null}"]);
     other_reply := Ok "ANALYSIS";
     search_reply := Ok one_record;
     write_reply := Ok tt;
     key := Some "sk-test" |}.

(** The model answers with a bare JSON list of two queries. *)
Definition bare_list_reply : string :=
  Str.cat ["["; Str.dq; "q1"; Str.dq; ", "; Str.dq; "q2"; Str.dq; "]"].

Definition bare_list : scenario :=
  {| queries_reply := Ok bare_list_reply;
     other_reply := Ok "ANALYSIS";
     search_reply := Ok one_record;
     write_reply := Ok tt;
     key := Some "sk-test" |}.

(** Every search fails. *)
Definition search_down : scenario :=
  {| queries_reply := Ok two_queries;
     other_reply := Ok "ANALYSIS";
     search_reply := Raise "503 Service Unavailable";
     write_reply := Ok tt;
     key := Some "sk-test" |}.

(** The API key is set to the empty string. *)
Definition empty_key : scenario :=
  {| queries_reply := Ok two_queries;
     other_reply := Ok "ANALYSIS";
     search_reply := Ok one_record;
     write_reply := Ok tt;
     key := Some EmptyString |}.

Definition llm0 : ChatOpenAI :=
  {| model := "gpt-4o-mini"; temperature := 0%Z; api_key := "sk-test" |}.

Definition question0 : pyval := PStr "Should I invest in Vietnamese banking stocks?".

Definition asked : dict := [("question_1", question0)].

(** The run of the market analyst on a full disk, step by step: the states
    of the world after each step and what the steps return. *)
Definition disk_queries : pyval :=
  PList [PStr "vietnam bank stocks 2024"; PStr "VN-Index outlook"].

Definition disk_results : list pyval :=
  [ PDict [("title", PStr "Banks"); ("link", PStr "https://example.org")];
    PDict [("title", PStr "Banks"); ("link", PStr "https://example.org")] ].

Definition disk_compiled : string :=
  match compile_search_results (H := env disk_full) disk_results with
  | Ok compiled => compiled
  | Raise _ => EmptyString
  end.

Definition disk_s2 : @Sys (env disk_full) :=
  (generate_search_queries (H := env disk_full)
     llm0 "P" question0 "market_analyst" (sys0 disk_full)).1.

Definition disk_s3 : @Sys (env disk_full) :=
  (perform_searches (H := env disk_full) disk_queries "market_analyst" disk_s2).1.

Definition disk_s4 : @Sys (env disk_full) :=
  (analyze_results (H := env disk_full)
     llm0 "P" question0 disk_compiled "market_analyst" disk_s3).1.

Definition disk_s5 : @Sys (env disk_full) :=
  (save_expert_analysis (H := env disk_full) "market_analyst" "ANALYSIS" question0 disk_s4).1.

End Demo.

(** * Properties *)

(** Closed equations are checked by evaluation. *)
Ltac by_vm :=
  lazymatch goal with
  | |- _ = ?r => vm_cast_no_check (@eq_refl _ r)
  end.


(** ** The monad *)

Section MonadFacts.
Context `{Env}.

Lemma bind_ok_inv {A B} (m : M A) (k : A -> M B) s s' b :
  bind m k s = (s', Ok b) ->
  exists a s1, m s = (s1, Ok a) /\ k a s1 = (s', Ok b).
Proof.
  unfold bind. destruct (m s) as [s1 [a|e]]; intros Hk; [eauto|discriminate].
Qed.

Lemma bind_ok {A B} (m : M A) (k : A -> M B) s s1 a :
  m s = (s1, Ok a) -> bind m k s = k a s1.
Proof. unfold bind. intros ->. reflexivity. Qed.

Lemma bind_raise {A B} (m : M A) (k : A -> M B) s s1 e :
  m s = (s1, Raise e) -> bind m k s = (s1, Raise e).
Proof. unfold bind. intros ->. reflexivity. Qed.

Lemma try_except_ok {A} (m : M A) (h : string -> M A) s s1 a :
  m s = (s1, Ok a) -> try_except m h s = (s1, Ok a).
Proof. unfold try_except. intros ->. reflexivity. Qed.

Lemma try_except_raise {A} (m : M A) (h : string -> M A) s s1 e :
  m s = (s1, Raise e) -> try_except m h s = h e s1.
Proof. unfold try_except. intros ->. reflexivity. Qed.


End MonadFacts.

(** ** Dictionaries *)

Section DictFacts.
Context {V : Type}.
Implicit Types (d : list (string * V)) (k : string) (v : V).

Lemma get_set_eq d k v : Dict.get (Dict.set k v d) k = Some v.
Proof.
  induction d as [|[k' v'] d IH]; simpl.
  - rewrite decide_True by done. done.
  - destruct (decide (k' = k)) as [->|Hne]; simpl.
    + rewrite decide_True by done. done.
    + rewrite decide_False by done. done.
Qed.


Lemma lit_two k1 v1 k2 v2 :
  k1 <> k2 -> Dict.lit [(k1, v1); (k2, v2)] = [(k1, v1); (k2, v2)].
Proof.
  intros Hne. unfold Dict.lit. simpl. rewrite decide_False by done. done.
Qed.

End DictFacts.

(** ** Task boundaries *)

Section Boundaries.
Context `{Env}.

(** What the [try] block of an expert returns when it does return. *)
Lemma expert_body_returns sp an gk qk state s s' upd :
  expert_analysis_body sp an gk qk state s = (s', Ok upd) ->
  exists analysis queries results,
    upd = Dict.lit
            [ (gk, PDict [(an, PStr analysis)]);
              ("search_results",
               PDict [(an +:+ "_search",
                       PDict (Dict.lit [("queries", queries); ("results", PList results)]))]) ].
Proof.
  unfold expert_analysis_body. intros Hb.
  apply bind_ok_inv in Hb as (llm & s1 & _ & Hb).
  apply bind_ok_inv in Hb as (queries & s2 & _ & Hb).
  apply bind_ok_inv in Hb as (results & s3 & _ & Hb).
  apply bind_ok_inv in Hb as (compiled & s4 & _ & Hb).
  apply bind_ok_inv in Hb as (analysis & s5 & _ & Hb).
  apply bind_ok_inv in Hb as (u & s6 & _ & Hb).
  unfold ret in Hb. inversion Hb; subst. eauto.
Qed.

Lemma summarizer_body_returns gn names gk qk state s s' upd :
  summarize_group_body gn names gk qk state s = (s', Ok upd) ->
  exists summary, upd = [("group_summaries", PDict [(gn, PStr summary)])].
Proof.
  unfold summarize_group_body. intros Hb.
  apply bind_ok_inv in Hb as (analyses & s1 & _ & Hb).
  apply bind_ok_inv in Hb as (info & s2 & _ & Hb).
  apply bind_ok_inv in Hb as (llm & s3 & _ & Hb).
  apply bind_ok_inv in Hb as (summary & s4 & _ & Hb).
  apply bind_ok_inv in Hb as (u1 & s5 & _ & Hb).
  apply bind_ok_inv in Hb as (clean & s6 & _ & Hb).
  apply bind_ok_inv in Hb as (u2 & s7 & _ & Hb).
  unfold ret in Hb. inversion Hb; subst. eauto.
Qed.

(** C1. Whatever is raised inside an expert task or a group summarizer task
    is caught at the task boundary: the task always returns.  When the body
    of an expert task raises with message [e], the task returns the group
    entry mapping its name to the text Error in analysis: [e] and the search
    entry holding error: [e]; when the body of a summarizer raises, the task
    returns the group_summaries entry mapping its display name to the text
    Error in summary: [e].  In every case the value under the group key, and
    under group_summaries, is a mapping from the name to a text. *)
Theorem task_boundary_catches
  (sp an gk qk gn : string) (names : list string) (state : dict) (s : Sys) :
  gk <> "search_results" ->
  (exists s' upd,
      expert_analysis sp an gk qk state s = (s', Ok upd)
      /\ (exists text, Dict.get upd gk = Some (PDict [(an, PStr text)]))
      /\ (forall e s1,
             expert_analysis_body sp an gk qk state s = (s1, Raise e) ->
             s' = s1
             /\ Dict.get upd gk = Some (PDict [(an, PStr ("Error in analysis: " +:+ e))])
             /\ Dict.get upd "search_results"
                = Some (PDict [(an +:+ "_search", PDict [("error", PStr e)])])))
  /\ (exists s' upd,
         summarize_group gn names gk qk state s = (s', Ok upd)
         /\ (exists text, upd = [("group_summaries", PDict [(gn, PStr text)])])
         /\ (forall e s1,
                summarize_group_body gn names gk qk state s = (s1, Raise e) ->
                s' = s1
                /\ upd = [("group_summaries", PDict [(gn, PStr ("Error in summary: " +:+ e))])])).
Proof.
  intros Hgk. split.
  - unfold expert_analysis.
    destruct (expert_analysis_body sp an gk qk state s) as [s1 [u|e]] eqn:Hbody.
    + exists s1, u. rewrite (try_except_ok _ _ _ _ _ Hbody). split; [done|]. split.
      * apply expert_body_returns in Hbody as (analysis & queries & results & ->).
        exists analysis. rewrite lit_two by done. simpl.
        rewrite decide_True by done. done.
      * intros e s2 [=].
    + exists s1, (expert_analysis_error an gk e).
      rewrite (try_except_raise _ _ _ _ _ Hbody). split; [done|].
      unfold expert_analysis_error. rewrite lit_two by done. simpl.
      rewrite decide_True by done. rewrite decide_False by done.
      split; [eauto|]. intros e' s2 [= <- <-]. done.
  - unfold summarize_group.
    destruct (summarize_group_body gn names gk qk state s) as [s1 [u|e]] eqn:Hbody.
    + exists s1, u. rewrite (try_except_ok _ _ _ _ _ Hbody). split; [done|]. split.
      * apply summarizer_body_returns in Hbody as (summary & ->). eauto.
      * intros e s2 [=].
    + exists s1, (summarize_group_error gn e).
      rewrite (try_except_raise _ _ _ _ _ Hbody). split; [done|].
      split; [unfold summarize_group_error; eauto|].
      intros e' s2 [= <- <-]. done.
Qed.

End Boundaries.

(** ** Persistence inside the expert task *)

Section Persistence.
Context `{Env}.

Lemma lift_run {A} (r : result A) (s : Sys) : lift r s = (s, r).
Proof. reflexivity. Qed.

(** The body of an expert task, once its first four steps have returned:
    it returns what persisting returns. *)
Lemma expert_body_after_analysis sp an gk qk state s s1 s2 s3 s4 llm queries results
  compiled analysis :
  let question := state_get state qk (PStr EmptyString) in
  get_model s = (s1, Ok llm) ->
  generate_search_queries llm sp question an s1 = (s2, Ok queries) ->
  perform_searches queries an s2 = (s3, Ok results) ->
  compile_search_results results = Ok compiled ->
  analyze_results llm sp question compiled an s3 = (s4, Ok analysis) ->
  expert_analysis_body sp an gk qk state s
  = match save_expert_analysis an analysis question s4 with
    | (s5, Ok _) =>
        (s5, Ok (Dict.lit
                   [ (gk, PDict [(an, PStr analysis)]);
                     ("search_results",
                      PDict [(an +:+ "_search",
                              PDict (Dict.lit [ ("queries", queries);
                                                ("results", PList results) ]))]) ]))
    | (s5, Raise e) => (s5, Raise e)
    end.
Proof.
  intros question Hm Hq Hs Hc Ha. unfold expert_analysis_body. fold question.
  rewrite (bind_ok _ _ _ _ _ Hm), (bind_ok _ _ _ _ _ Hq), (bind_ok _ _ _ _ _ Hs).
  rewrite (bind_ok _ _ s3 s3 compiled) by (rewrite Hc; apply lift_run).
  rewrite (bind_ok _ _ _ _ _ Ha).
  unfold bind at 1. destruct (save_expert_analysis an analysis question s4) as [s5 [[]|e]];
    reflexivity.
Qed.

(** C4, as the code has it.  When the first four steps of an expert task
    have returned, a failure to persist the analysis is caught at the task
    boundary like every other failure: the task returns, and its group entry
    maps the expert name to the text Error in analysis: [e], its search entry
    holds error: [e].  The group entry maps the name to the analysis text
    when persisting returns. *)
Theorem persistence_failure_is_caught sp an gk qk state s s1 s2 s3 s4 s5 llm queries
  results compiled analysis (saved : result unit) :
  let question := state_get state qk (PStr EmptyString) in
  gk <> "search_results" ->
  get_model s = (s1, Ok llm) ->
  generate_search_queries llm sp question an s1 = (s2, Ok queries) ->
  perform_searches queries an s2 = (s3, Ok results) ->
  compile_search_results results = Ok compiled ->
  analyze_results llm sp question compiled an s3 = (s4, Ok analysis) ->
  save_expert_analysis an analysis question s4 = (s5, saved) ->
  exists upd,
    expert_analysis sp an gk qk state s = (s5, Ok upd)
    /\ match saved with
       | Raise e =>
           Dict.get upd gk = Some (PDict [(an, PStr ("Error in analysis: " +:+ e))])
           /\ Dict.get upd "search_results"
              = Some (PDict [(an +:+ "_search", PDict [("error", PStr e)])])
       | Ok _ => Dict.get upd gk = Some (PDict [(an, PStr analysis)])
       end.
Proof.
  intros question Hgk Hm Hq Hs Hc Ha Hsave.
  pose proof (expert_body_after_analysis sp an gk qk state s s1 s2 s3 s4 llm queries
                results compiled analysis Hm Hq Hs Hc Ha) as Hbody.
  cbv zeta in Hbody. fold question in Hbody. rewrite Hsave in Hbody.
  unfold expert_analysis. destruct saved as [[]|e].
  - rewrite (try_except_ok _ _ _ _ _ Hbody). eexists; split; [reflexivity|].
    rewrite lit_two by done. simpl. rewrite decide_True by done. done.
  - rewrite (try_except_raise _ _ _ _ _ Hbody). eexists; split; [reflexivity|].
    unfold expert_analysis_error. rewrite lit_two by done. simpl.
    rewrite decide_True by done. rewrite decide_False by done. done.
Qed.

End Persistence.

(** C4, as the claim states it, fails: with a model that answers, a search
    that answers and a disk that is full, the first four steps of the market
    analyst return, the analysis text is ANALYSIS, persisting raises, and the
    group entry returned holds an error text instead of the analysis. *)
Lemma persistence_is_not_best_effort :
  let E := Demo.env Demo.disk_full in
  let s := Demo.sys0 Demo.disk_full in
  let run := @expert_analysis E "P" "market_analyst" "group_1" "question_1" Demo.asked s in
  @get_model E s = (s, Ok Demo.llm0)
  /\ @generate_search_queries E Demo.llm0 "P" Demo.question0 "market_analyst" s
     = (Demo.disk_s2, Ok Demo.disk_queries)
  /\ @perform_searches E Demo.disk_queries "market_analyst" Demo.disk_s2
     = (Demo.disk_s3, Ok Demo.disk_results)
  /\ @compile_search_results E Demo.disk_results = Ok Demo.disk_compiled
  /\ @analyze_results E Demo.llm0 "P" Demo.question0 Demo.disk_compiled "market_analyst"
       Demo.disk_s3
     = (Demo.disk_s4, Ok "ANALYSIS")
  /\ @save_expert_analysis E "market_analyst" "ANALYSIS" Demo.question0 Demo.disk_s4
     = (Demo.disk_s5, Raise "[Errno 28] No space left on device")
  /\ run.2
     = Ok [ ("group_1",
             PDict [("market_analyst",
                     PStr "Error in analysis: [Errno 28] No space left on device")]);
            ("search_results",
             PDict [("market_analyst_search",
                     PDict [("error", PStr "[Errno 28] No space left on device")])]) ]
  /\ run.2
     <> Ok [ ("group_1", PDict [("market_analyst", PStr "ANALYSIS")]);
             ("search_results",
              PDict [("market_analyst_search",
                      PDict [ ("queries", Demo.disk_queries);
                              ("results", PList Demo.disk_results) ])]) ].
Proof.
  cbv zeta.
  assert ((@expert_analysis (Demo.env Demo.disk_full) "P" "market_analyst" "group_1"
             "question_1" Demo.asked (Demo.sys0 Demo.disk_full)).2
          = Ok [ ("group_1",
                  PDict [("market_analyst",
                          PStr "Error in analysis: [Errno 28] No space left on device")]);
                 ("search_results",
                  PDict [("market_analyst_search",
                          PDict [("error", PStr "[Errno 28] No space left on device")])]) ])
    as Hrun by by_vm.
  repeat match goal with |- _ /\ _ => split end; try by_vm.
  rewrite Hrun. discriminate.
Qed.

(** The amended C4 on the full disk of the example. *)
Lemma persistence_failure_is_caught_witness :
  let E := Demo.env Demo.disk_full in
  exists upd,
    @expert_analysis E "P" "market_analyst" "group_1" "question_1" Demo.asked
      (Demo.sys0 Demo.disk_full)
    = (Demo.disk_s5, Ok upd)
    /\ Dict.get upd "group_1"
       = Some (PDict [("market_analyst",
                       PStr "Error in analysis: [Errno 28] No space left on device")])
    /\ Dict.get upd "search_results"
       = Some (PDict [("market_analyst_search",
                       PDict [("error", PStr "[Errno 28] No space left on device")])]).
Proof.
  intros E.
  apply (persistence_failure_is_caught (H := E)
           "P" "market_analyst" "group_1" "question_1" Demo.asked
           (Demo.sys0 Demo.disk_full) (Demo.sys0 Demo.disk_full)
           Demo.disk_s2 Demo.disk_s3 Demo.disk_s4 Demo.disk_s5 Demo.llm0
           Demo.disk_queries Demo.disk_results Demo.disk_compiled "ANALYSIS"
           (Raise "[Errno 28] No space left on device"));
    [discriminate|by_vm..].
Defined.

(** ** Query extraction *)

Section Extraction.
Context `{Env}.

(** The loop of the fallback keeps the quoted lines, in order. *)
Lemma fallback_loop lines acc :
  fold_left
    (fun queries line =>
       if quoted_line line then queries ++ [unquote_line line] else queries)
    lines acc
  = acc ++ (unquote_line <$> List.filter quoted_line lines).
Proof.
  revert acc. induction lines as [|line lines IH]; intros acc; simpl.
  - by rewrite app_nil_r.
  - rewrite IH. destruct (quoted_line line); simpl; [|done].
    by rewrite <- app_assoc.
Qed.

Lemma fallback_queries_eq content :
  fallback_queries content
  = take 5 (unquote_line <$> List.filter quoted_line (Str.split Str.newline content)).
Proof. unfold fallback_queries. by rewrite fallback_loop. Qed.

Lemma fallback_queries_length content : length (fallback_queries content) <= 5.
Proof. rewrite fallback_queries_eq, length_take. lia. Qed.

Lemma fallback_queries_none content :
  Forall (fun line => quoted_line line = false) (Str.split Str.newline content) ->
  fallback_queries content = [].
Proof.
  intros Hall. rewrite fallback_queries_eq.
  induction Hall as [|line lines Hl _ IH]; simpl; [done|]. by rewrite Hl.
Qed.

(** The call of the model, then the extraction: what
    [generate_search_queries] returns is a function of the reply alone. *)
Lemma generate_search_queries_run llm sp question an (s : Sys) w1 content :
  chat_invoke llm (query_messages sp question an) (world s) = (w1, Ok content) ->
  generate_search_queries llm sp question an s
  = ({| world := w1;
        trace := trace s ++ [EvModel llm (query_messages sp question an)] |},
     Ok match parse_queries content with
        | Ok queries => queries
        | Raise _ => PList (PStr <$> fallback_queries content)
        end).
Proof.
  intros Hcall. unfold generate_search_queries, bind, call. rewrite Hcall.
  unfold try_except, lift, ret. by destruct (parse_queries content).
Qed.

(** C5, where the code departs from it.  On a reply that is not JSON and
    lists the queries one quoted string per line, as the format example of
    the prompt shows them, the fallback is taken and the first query keeps
    its closing quote: the quotes are stripped before the comma that
    follows them, so the quote in front of the comma stays. *)
Theorem fallback_keeps_closing_quote :
  parse_queries (H := Demo.env Demo.malformed) Demo.listed_queries = Raise "Expecting value"
  /\ quoted_line (Str.cat ["    "; Str.dq; "vietnam bank stocks 2024"; Str.dq; ","]) = true
  /\ unquote_line (Str.cat ["    "; Str.dq; "vietnam bank stocks 2024"; Str.dq; ","])
     = "vietnam bank stocks 2024" +:+ Str.dq
  /\ fallback_queries Demo.listed_queries
     = ["vietnam bank stocks 2024" +:+ Str.dq; "VN-Index outlook"]
  /\ snd (generate_search_queries (H := Demo.env Demo.malformed)
            Demo.llm0 "P" (PStr "Q") "market_analyst" (Demo.sys0 Demo.malformed))
     = Ok (PList [PStr ("vietnam bank stocks 2024" +:+ Str.dq); PStr "VN-Index outlook"]).
Proof. repeat match goal with |- _ /\ _ => split end; by_vm. Qed.

(** C9. When the JSON portion of the reply decodes to an object, the value
    returned is the value under its queries key, whole, whatever its length,
    and the empty list when the object has no such key; the fallback is not
    taken.  The bound of five holds for what the fallback returns. *)
Theorem parsed_queries_are_returned_whole llm sp question an (s : Sys) w1 content
  json_str d :
  chat_invoke llm (query_messages sp question an) (world s) = (w1, Ok content) ->
  json_portion content = Ok json_str ->
  json_loads json_str = Ok (PDict d) ->
  snd (generate_search_queries llm sp question an s)
  = Ok (from_option id (PList []) (Dict.get d "queries"))
  /\ (forall v, Dict.get d "queries" = Some v ->
                snd (generate_search_queries llm sp question an s) = Ok v)
  /\ (Dict.get d "queries" = None ->
      snd (generate_search_queries llm sp question an s) = Ok (PList []))
  /\ length (fallback_queries content) <= 5.
Proof.
  intros Hcall Hportion Hloads.
  rewrite (generate_search_queries_run _ _ _ _ _ _ _ Hcall). simpl.
  unfold parse_queries. rewrite Hportion. simpl. rewrite Hloads. simpl.
  split; [done|]. split; [by intros v ->|]. split; [by intros ->|].
  apply fallback_queries_length.
Qed.

(** C6. Two runs of the extraction on the same reply return the same
    queries, whichever model client, persona, question and state of the
    world each run starts from; when the JSON portion of the reply decodes
    to an object with a queries key, both return the value under that key. *)
Theorem query_extraction_is_deterministic llm1 llm2 sp1 sp2 q1 q2 an1 an2
  (s1 s2 : Sys) w1 w2 content :
  chat_invoke llm1 (query_messages sp1 q1 an1) (world s1) = (w1, Ok content) ->
  chat_invoke llm2 (query_messages sp2 q2 an2) (world s2) = (w2, Ok content) ->
  exists queries,
    snd (generate_search_queries llm1 sp1 q1 an1 s1) = Ok queries
    /\ snd (generate_search_queries llm2 sp2 q2 an2 s2) = Ok queries
    /\ (forall json_str d v,
           json_portion content = Ok json_str ->
           json_loads json_str = Ok (PDict d) ->
           Dict.get d "queries" = Some v ->
           queries = v).
Proof.
  intros Hc1 Hc2.
  rewrite (generate_search_queries_run _ _ _ _ _ _ _ Hc1).
  rewrite (generate_search_queries_run _ _ _ _ _ _ _ Hc2). simpl.
  eexists. split; [reflexivity|]. split; [reflexivity|].
  intros json_str d v Hportion Hloads Hget.
  unfold parse_queries. rewrite Hportion. simpl. rewrite Hloads. simpl.
  by rewrite Hget.
Qed.

End Extraction.

(** C9 on a reply with six queries: all six are returned. *)
Lemma parsed_queries_are_returned_whole_witness :
  snd (generate_search_queries (H := Demo.env Demo.many_queries)
         Demo.llm0 "P" (PStr "Q") "market_analyst" (Demo.sys0 Demo.many_queries))
  = Ok (PList (PStr <$> ["q1"; "q2"; "q3"; "q4"; "q5"; "q6"])).
Proof.
  apply (parsed_queries_are_returned_whole (H := Demo.env Demo.many_queries)
           Demo.llm0 "P" (PStr "Q") "market_analyst" (Demo.sys0 Demo.many_queries)
           tt Demo.six_queries Demo.six_queries
           [("queries", PList (PStr <$> ["q1"; "q2"; "q3"; "q4"; "q5"; "q6"]))]);
    by_vm.
Defined.

(** C6 on the three shapes of a well-formed reply: fenced with a language
    tag and run twice from different personas, then fenced without a tag,
    then bare. *)
Lemma query_extraction_is_deterministic_witness :
  exists queries,
    snd (generate_search_queries (H := Demo.env Demo.nominal)
           Demo.llm0 "P" (PStr "Q") "market_analyst" (Demo.sys0 Demo.nominal))
    = Ok queries
    /\ snd (generate_search_queries (H := Demo.env Demo.nominal)
              Demo.llm0 "R" (PStr "Q2") "technical_analyst" (Demo.sys0 Demo.nominal))
       = Ok queries
    /\ parse_queries (H := Demo.env Demo.nominal) (Demo.fenced_plain Demo.two_queries)
       = Ok queries
    /\ parse_queries (H := Demo.env Demo.nominal) Demo.two_queries = Ok queries.
Proof.
  destruct (query_extraction_is_deterministic (H := Demo.env Demo.nominal)
              Demo.llm0 Demo.llm0 "P" "R" (PStr "Q") (PStr "Q2")
              "market_analyst" "technical_analyst"
              (Demo.sys0 Demo.nominal) (Demo.sys0 Demo.nominal) tt tt
              (Demo.fenced_json Demo.two_queries) eq_refl eq_refl)
    as (queries & H1 & H2 & Hv).
  exists queries. split; [exact H1|]. split; [exact H2|].
  rewrite (Hv Demo.two_queries
             [("queries", PList [PStr "vietnam bank stocks 2024"; PStr "VN-Index outlook"])]
             (PList [PStr "vietnam bank stocks 2024"; PStr "VN-Index outlook"]));
    try by_vm.
  split; by_vm.
Defined.

(** ** Appending strings *)

Lemma append_assoc (a b c : string) : (a +:+ b) +:+ c = a +:+ (b +:+ c).
Proof.
  induction a as [|x a IH]; [done|].
  change (String x a +:+ b) with (String x (a +:+ b)).
  change (String x (a +:+ b) +:+ c) with (String x ((a +:+ b) +:+ c)).
  change (String x a +:+ (b +:+ c)) with (String x (a +:+ (b +:+ c))).
  by rewrite IH.
Qed.

Lemma append_nil_r (a : string) : a +:+ EmptyString = a.
Proof.
  induction a as [|x a IH]; [done|].
  change (String x a +:+ EmptyString) with (String x (a +:+ EmptyString)).
  by rewrite IH.
Qed.

(** ** The final synthesis *)

Section Synthesis.
Context `{Env}.

Lemma get_model_keeps_state (s : Sys) : (get_model s).1 = s.
Proof.
  unfold get_model. destruct (os_getenv _ _) as [k|]; [|done].
  by destruct (bool_decide _).
Qed.


Lemma first_question_copy_none state range :
  (forall j u, j ∈ range ->
               Dict.get state ("question_" +:+ pretty j) = Some u -> truthy u = false) ->
  first_question_copy state range = None.
Proof.
  induction range as [|j range IH]; intros Hnone; simpl; [done|].
  destruct (Dict.get state ("question_" +:+ pretty j)) as [u|] eqn:Hu.
  - rewrite (Hnone j u); [|by left|done]. apply IH. intros j' u' Hj'. apply Hnone. by right.
  - apply IH. intros j' u' Hj'. apply Hnone. by right.
Qed.


(** The task returns a final report on every path, after at most one call
    of the model. *)
Lemma final_synthesizer_returns state (s : Sys) :
  exists s' text new,
    final_synthesizer state s = (s', Ok [("final_report", PStr text)])
    /\ trace s' = trace s ++ new
    /\ length (List.filter is_model_call new) <= 1.
Proof.
  unfold final_synthesizer, final_synthesizer_body, try_except, bind, lift, call, ret.
  destruct (format_group_summaries state) as [summaries|e]; simpl.
  2:{ eexists _, _, []. rewrite app_nil_r. split_and!; [done..|simpl; lia]. }
  pose proof (get_model_keeps_state s) as Hkeep.
  destruct (get_model s) as [s1 [llm|e]]; simpl in Hkeep; subst s1.
  2:{ eexists _, _, []. rewrite app_nil_r. split_and!; [done..|simpl; lia]. }
  destruct (chat_invoke _ _ _) as [w1 [report|e]]; simpl.
  2:{ eexists _, _, [_]. split_and!; [done..|simpl; lia]. }
  destruct (fs_mkdir _ _) as [w2 [[]|e]]; simpl.
  2:{ eexists _, _, [_; _]. rewrite <- app_assoc. split_and!; [done..|simpl; lia]. }
  destruct (fs_write _ _ _) as [w3 [[]|e]]; simpl;
    eexists _, _, [_; _; _]; rewrite <- !app_assoc; (split_and!; [done..|simpl; lia]).
Qed.





End Synthesis.

(** ** The question an expert reads *)

Section ExpertQuestion.
Context `{Env}.



End ExpertQuestion.



(** C1 at the market analyst and the market summarizer when no API key is
    set: both bodies raise, both tasks return the error entries. *)
Lemma task_boundary_catches_witness :
  let E := Demo.env Demo.no_key in
  let s := Demo.sys0 Demo.no_key in
  (exists s' upd,
      @expert_analysis E "P" "market_analyst" "group_1" "question_1" Demo.asked s = (s', Ok upd)
      /\ Dict.get upd "group_1"
         = Some (PDict [("market_analyst",
                         PStr "Error in analysis: No API key found for OpenAI")])
      /\ Dict.get upd "search_results"
         = Some (PDict [("market_analyst_search",
                         PDict [("error", PStr "No API key found for OpenAI")])]))
  /\ (exists s' upd,
         @summarize_group E "Market" ["market_analyst"] "group_1" "question_1" Demo.asked s
         = (s', Ok upd)
         /\ upd = [("group_summaries",
                    PDict [("Market", PStr "Error in summary: No API key found for OpenAI")])]).
Proof.
  intros E s.
  destruct (task_boundary_catches (H := E) "P" "market_analyst" "group_1" "question_1"
              "Market" ["market_analyst"] Demo.asked s)
    as [(s1 & u1 & Hrun1 & _ & Herr1) (s2 & u2 & Hrun2 & _ & Herr2)]; [discriminate|].
  split.
  - exists s1, u1. split; [exact Hrun1|].
    apply (Herr1 "No API key found for OpenAI" s). by_vm.
  - exists s2, u2. split; [exact Hrun2|].
    apply (Herr2 "No API key found for OpenAI" s). by_vm.
Defined.



(** ** The graph of a group *)

Section GroupGraph.
Context `{Env}.

Lemma add_nodes_fold (f : nat -> string) (l : list (nat * (dict -> M dict))) w :
  nodes (fold_left (fun w ie => add_node (f ie.1) ie.2 w) l w)
  = nodes w ++ ((fun ie => (f ie.1, ie.2)) <$> l)
  /\ edges (fold_left (fun w ie => add_node (f ie.1) ie.2 w) l w) = edges w.
Proof.
  revert w. induction l as [|ie l IH]; intros w; simpl.
  - by rewrite app_nil_r.
  - destruct (IH (add_node (f ie.1) ie.2 w)) as [-> ->]. simpl.
    by rewrite <- app_assoc.
Qed.

Lemma add_edges_fold (f g : nat -> string) (l : list nat) w :
  nodes (fold_left (fun w i => add_edge (f i) (g i) w) l w) = nodes w
  /\ edges (fold_left (fun w i => add_edge (f i) (g i) w) l w)
     = edges w ++ ((fun i => (f i, g i)) <$> l).
Proof.
  revert w. induction l as [|i l IH]; intros w; simpl.
  - by rewrite app_nil_r.
  - destruct (IH (add_edge (f i) (g i) w)) as [-> ->]. simpl.
    by rewrite <- app_assoc.
Qed.

Lemma item_cons x l i : item (x :: l) (S i) = item l i.
Proof. reflexivity. Qed.

(** The edges of a path, by the index of their source. *)
Lemma zip_shifted (l : list string) n a b :
  length l = S n ->
  zip (a :: l) (l ++ [b])
  = (a, item l 0)
    :: ((fun i => (item l i, item l (i + 1))) <$> seq 0 n)
    ++ [(item l n, b)].
Proof.
  revert a n. induction l as [|x l IH]; intros a n Hlen; [done|].
  destruct l as [|y l].
  - simpl in Hlen. assert (n = 0) as -> by lia. reflexivity.
  - destruct n as [|n]; [simpl in Hlen; lia|].
    change (zip (a :: x :: y :: l) ((x :: y :: l) ++ [b]))
      with ((a, x) :: zip (x :: y :: l) ((y :: l) ++ [b])).
    rewrite (IH x n) by (simpl in *; lia).
    rewrite <- cons_seq, fmap_cons, <- fmap_S_seq, <- list_fmap_compose.
    reflexivity.
Qed.

Lemma zip_path (l : list string) a b c :
  path_edges (a :: l ++ [b; c]) = zip (a :: l) (l ++ [b]) ++ [(b, c)].
Proof.
  unfold path_edges. simpl tail. revert a.
  induction l as [|x l IH]; intros a; [reflexivity|].
  change (zip (a :: (x :: l) ++ [b; c]) ((x :: l) ++ [b; c]))
    with ((a, x) :: zip (x :: l ++ [b; c]) (l ++ [b; c])).
  rewrite IH. reflexivity.
Qed.

Lemma zip_names_nodes (f : nat -> string) (experts : list (dict -> M dict)) k :
  (fun ie : nat * (dict -> M dict) => (f ie.1, ie.2)) <$> zip (seq k (length experts)) experts
  = zip (f <$> seq k (length experts)) experts.
Proof.
  revert k. induction experts as [|e experts IH]; intros k; [reflexivity|].
  simpl. by rewrite IH.
Qed.

Lemma items_of_names (names : list string) (experts : list (dict -> M dict)) k :
  (fun ie : nat * (dict -> M dict) => (item names ie.1, ie.2))
    <$> zip (seq k (length experts)) experts
  = zip ((item names) <$> seq k (length experts)) experts.
Proof. apply zip_names_nodes. Qed.

Lemma items_of_expert_names n :
  item (expert_names n) <$> seq 0 n = expert_names n.
Proof.
  unfold expert_names at 2. apply list_fmap_ext. intros i x Hx.
  apply lookup_seq in Hx as [-> Hi]. simpl. unfold item, expert_names.
  rewrite list_lookup_fmap, lookup_seq_lt by done. done.
Qed.

Lemma group_workflow_nodes gn experts summ :
  nodes (expert_group_workflow gn experts summ)
  = zip (expert_names (length experts)) experts ++ [(gn +:+ "_summarizer", summ)].
Proof.
  unfold expert_group_workflow. cbv zeta. fold (expert_names (length experts)).
  set (names := expert_names (length experts)).
  set (w1 := fold_left _ (zip (seq 0 (length experts)) experts) _).
  assert (nodes w1 = zip names experts) as Hn1.
  { subst w1. rewrite (proj1 (add_nodes_fold (item names) _ _)). simpl.
    rewrite items_of_names. subst names. by rewrite items_of_expert_names. }
  destruct names as [|first rest] eqn:Hnames; simpl.
  - by rewrite Hn1.
  - rewrite (proj1 (add_edges_fold _ _ _ _)). simpl. by rewrite Hn1.
Qed.

Lemma group_workflow_edges gn experts summ :
  edges (expert_group_workflow gn experts summ)
  = path_edges (START :: expert_names (length experts) ++ [gn +:+ "_summarizer"; END]).
Proof.
  unfold expert_group_workflow. cbv zeta. fold (expert_names (length experts)).
  set (names := expert_names (length experts)).
  set (w1 := fold_left _ (zip (seq 0 (length experts)) experts) _).
  assert (edges w1 = []) as He1.
  { subst w1. by rewrite (proj2 (add_nodes_fold (item names) _ _)). }
  rewrite zip_path.
  destruct names as [|first rest] eqn:Hnames.
  - simpl. by rewrite He1.
  - rewrite <- Hnames.
    assert (length names = S (length names - 1)) as Hlen by (rewrite Hnames; simpl; lia).
    rewrite (zip_shifted names _ START _ Hlen). simpl.
    rewrite (proj2 (add_edges_fold _ _ _ _)). simpl. rewrite He1. simpl.
    by rewrite <- !app_assoc.
Qed.

End GroupGraph.

(** ** The engine on a path *)

Section Paths.
Context `{Env}.

Lemma filter_zip_snd_none {A} (xs : list A) (ys : list string) y :
  y ∉ ys -> List.filter (fun e : A * string => bool_decide (e.2 = y)) (zip xs ys) = [].
Proof.
  revert xs. induction ys as [|y0 ys IH]; intros xs Hnot; destruct xs as [|x0 xs];
    simpl; try done.
  rewrite bool_decide_eq_false_2.
  - apply IH. intros Hin. apply Hnot. by right.
  - intros ->. apply Hnot. by left.
Qed.

(** In a list without repetition an edge is found by its target. *)
Lemma filter_zip_snd {A} (xs : list A) (ys : list string) j x y :
  NoDup ys -> xs !! j = Some x -> ys !! j = Some y ->
  fst <$> List.filter (fun e : A * string => bool_decide (e.2 = y)) (zip xs ys) = [x].
Proof.
  revert xs j. induction ys as [|y0 ys IH]; intros xs j Hnd Hx Hy; [done|].
  destruct xs as [|x0 xs]; [done|]. apply NoDup_cons in Hnd as [Hnot Hnd].
  destruct j as [|j]; simpl in *.
  - injection Hx as ->. injection Hy as ->.
    rewrite bool_decide_eq_true_2 by done. simpl.
    by rewrite filter_zip_snd_none.
  - rewrite bool_decide_eq_false_2.
    + by apply (IH xs j).
    + intros ->. apply Hnot. by eapply list_elem_of_lookup_2.
Qed.

(** A test that holds at one index only selects the element there. *)
Lemma filter_at_index {A} (Q : A -> bool) (l : list A) k :
  (forall j x, l !! j = Some x -> (Q x = true <-> j = k)) ->
  List.filter Q l = option_list (l !! k).
Proof.
  revert k. induction l as [|x l IH]; intros k HQ; [done|]. simpl.
  destruct k as [|k].
  - rewrite (proj2 (HQ 0 x eq_refl)) by done. simpl. f_equal.
    rewrite (IH (S (length l))).
    + by rewrite lookup_ge_None_2 by lia.
    + intros j y Hy. split.
      * intros HQy. by apply (HQ (S j) y) in HQy.
      * intros ->. apply lookup_lt_Some in Hy. lia.
  - destruct (Q x) eqn:HQx.
    + by apply (HQ 0 x) in HQx.
    + simpl. apply IH. intros j y Hy. split.
      * intros HQy. apply (HQ (S j) y) in HQy; [lia|done].
      * intros ->. by apply (HQ (S k) y).
Qed.

Variable g : StateGraph.
Variable ns : list string.
Variable fs : list (dict -> M dict).
Hypothesis g_nodes : nodes g = zip ns fs.
Hypothesis g_edges : edges g = path_edges (START :: ns ++ [END]).
Hypothesis same_length : length ns = length fs.
Hypothesis ns_NoDup : NoDup ns.
Hypothesis START_fresh : START ∉ ns.
Hypothesis END_fresh : END ∉ ns.

Lemma path_edges_zip : edges g = zip (START :: ns) (ns ++ [END]).
Proof.
  rewrite g_edges. unfold path_edges. simpl tail.
  assert (forall a (l : list string) (b : string),
             zip (a :: l ++ [b]) (l ++ [b]) = zip (a :: l) (l ++ [b])) as Hcut.
  { intros a l b. revert a. induction l as [|x l IH]; intros a; [done|].
    simpl. f_equal. apply IH. }
  apply Hcut.
Qed.

(** The one edge into the node at index [j] comes from the node before it. *)
Lemma path_predecessors j x :
  ns !! j = Some x ->
  exists p, (START :: ns) !! j = Some p /\ predecessors g x = [p].
Proof.
  intros Hx. assert (j < length ns) as Hj by by eapply lookup_lt_Some.
  destruct ((START :: ns) !! j) as [p|] eqn:Hp.
  2:{ apply lookup_ge_None in Hp. simpl in Hp. lia. }
  exists p. split; [done|]. unfold predecessors. rewrite path_edges_zip.
  apply (filter_zip_snd _ _ j); [|done|].
  - apply NoDup_app. split_and!; [done| |apply NoDup_singleton].
    intros y Hy ->%list_elem_of_singleton. done.
  - by rewrite lookup_app_l.
Qed.

Lemma elem_of_take_NoDup k j x :
  ns !! j = Some x -> (x ∈ take k ns <-> j < k).
Proof.
  intros Hx. split.
  - intros (i & Hi)%list_elem_of_lookup_1.
    assert (i < k) as Hik.
    { apply lookup_lt_Some in Hi. rewrite length_take in Hi. lia. }
    rewrite lookup_take_lt in Hi by done.
    by rewrite (NoDup_lookup ns j i x ns_NoDup Hx Hi).
  - intros Hjk. apply (list_elem_of_lookup_2 _ j). by rewrite lookup_take_lt.
Qed.

(** When the first [k] nodes of the path have completed, the node at index
    [k] is ready and no other. *)
Lemma path_is_ready k j x :
  ns !! j = Some x -> (is_ready g (take k ns) x = true <-> j = k).
Proof.
  intros Hx. destruct (path_predecessors j x Hx) as (p & Hp & Hpreds).
  unfold is_ready. rewrite Hpreds. simpl.
  rewrite andb_true_r, !andb_true_iff, !negb_true_iff, orb_true_iff.
  rewrite !bool_decide_eq_false, !bool_decide_eq_true.
  rewrite (elem_of_take_NoDup k j x Hx).
  destruct j as [|j]; simpl in Hp.
  - injection Hp as <-. split; [intros [Hk _]; lia|].
    intros <-. split_and!; [lia|by left|done].
  - rewrite (elem_of_take_NoDup k j p Hp). split.
    + intros (Hjk & [->|Hlt] & _); [|lia].
      exfalso. apply START_fresh. by eapply list_elem_of_lookup_2.
    + intros <-. split_and!; [lia|right; lia|done].
Qed.

Lemma path_ready k :
  ready g (take k ns) = option_list (zip ns fs !! k).
Proof.
  unfold ready. rewrite g_nodes. apply filter_at_index.
  intros j [x f] Hj. simpl. apply path_is_ready.
  apply lookup_zip_with_Some in Hj as (x' & f' & [= <- <-] & Hx & _). done.
Qed.

(** The rounds of the engine on a path: one node per round, in path order. *)
Lemma run_loop_path m k state s :
  k + m = length ns ->
  run_loop m g (take k ns) state s = run_in_order (schema g) (drop k (zip ns fs)) state s.
Proof.
  revert k state s. induction m as [|m IH]; intros k state s Hk.
  - rewrite drop_ge; [done|]. rewrite length_zip_with, <- same_length. simpl in *. lia.
  - simpl. rewrite path_ready.
    destruct (zip ns fs !! k) as [[x f]|] eqn:Hnd.
    2:{ apply lookup_ge_None in Hnd. rewrite length_zip_with, <- same_length in Hnd. lia. }
    simpl. rewrite (drop_S _ _ _ Hnd). simpl.
    unfold bind at 1 2 4. destruct (run_node x f state s) as [s1 [u|e]]; [|done].
    unfold bind, ret. simpl.
    apply lookup_zip_with_Some in Hnd as (x' & f' & [= <- <-] & Hx & _).
    rewrite <- (take_S_r ns k x Hx). apply IH. lia.
Qed.

(** The compiled path graph runs its nodes in path order. *)
Lemma compile_path input s :
  compile g input s
  = (final <- run_in_order (schema g) (zip ns fs)
                (Dict.restrict (Dict.keys (input_schema g)) input) ;;
     ret (Dict.restrict (Dict.keys (output_schema g)) final)) s.
Proof.
  unfold compile, bind. rewrite g_nodes, length_zip_with, <- same_length, Nat.min_id.
  change [] with (take 0 ns) at 1. rewrite run_loop_path by lia. done.
Qed.

End Paths.

(** ** Node names *)

Section NodeNames.

Lemma last_byte_nonempty s : s <> EmptyString -> is_Some (Str.last_byte s).
Proof.
  destruct s as [|c s]; [done|]. intros _. simpl.
  destruct (Str.last_byte s); eauto.
Qed.

Lemma last_byte_app s1 s2 :
  s2 <> EmptyString -> Str.last_byte (s1 +:+ s2) = Str.last_byte s2.
Proof.
  intros Hne. induction s1 as [|c s1 IH]; [done|].
  change (String c s1 +:+ s2) with (String c (s1 +:+ s2)). simpl. rewrite IH.
  by destruct (last_byte_nonempty s2 Hne) as [c' ->].
Qed.

Lemma last_byte_pretty_go x s :
  s <> EmptyString -> Str.last_byte (pretty_N_go x s) = Str.last_byte s.
Proof.
  revert s. induction (N.lt_wf_0 x) as [x _ IH]; intros s Hne.
  destruct (decide (x = 0%N)) as [->|Hx]; [by rewrite pretty_N_go_0|].
  rewrite pretty_N_go_step by lia. rewrite IH.
  - simpl. by destruct (last_byte_nonempty s Hne) as [c' ->].
  - apply N.div_lt; lia.
  - done.
Qed.

(** A number in decimal ends in a digit. *)
Lemma last_byte_pretty (i : nat) :
  exists x, Str.last_byte (pretty i) = Some (pretty_N_char x).
Proof.
  unfold pretty, pretty_nat, pretty, pretty_N.
  destruct (decide (N.of_nat i = 0%N)) as [_|Hx]; [by exists 0%N|].
  rewrite pretty_N_go_step by lia. rewrite last_byte_pretty_go by done.
  simpl. eauto.
Qed.

Lemma expert_name_last (i : nat) :
  exists x, Str.last_byte ("expert_" +:+ pretty i) = Some (pretty_N_char x).
Proof.
  destruct (last_byte_pretty i) as [x Hx]. exists x.
  rewrite last_byte_app; [done|]. intros Hnil. by rewrite Hnil in Hx.
Qed.

Lemma pretty_N_char_digit x c :
  c = "r"%char \/ c = "_"%char -> pretty_N_char x <> c.
Proof. unfold pretty_N_char. intros [-> | ->]; by repeat case_match. Qed.

Lemma summarizer_name_last gn : Str.last_byte (gn +:+ "_summarizer") = Some "r"%char.
Proof. by rewrite last_byte_app. Qed.

Lemma length_expert_names n : length (expert_names n) = n.
Proof. unfold expert_names. by rewrite length_fmap, length_seq. Qed.

Lemma expert_names_NoDup n : NoDup (expert_names n).
Proof.
  unfold expert_names. apply NoDup_fmap_2; [|apply NoDup_seq].
  intros i j Hij. apply (inj (String.app "expert_")) in Hij. by apply (inj pretty).
Qed.

Lemma group_names_NoDup gn n : NoDup (expert_names n ++ [gn +:+ "_summarizer"]).
Proof.
  apply NoDup_app. split_and!; [apply expert_names_NoDup| |apply NoDup_singleton].
  intros x (i & -> & _)%list_elem_of_fmap Heq%list_elem_of_singleton.
  destruct (expert_name_last i) as [d Hd].
  rewrite Heq, summarizer_name_last in Hd. injection Hd as Hd.
  symmetry in Hd. revert Hd. apply pretty_N_char_digit. by left.
Qed.

(** A name that ends in an underscore is not a node of a group graph. *)
Lemma group_names_fresh gn n (x : string) :
  Str.last_byte x = Some "_"%char -> x ∉ expert_names n ++ [gn +:+ "_summarizer"].
Proof.
  intros Hx [(i & -> & _)%list_elem_of_fmap| ->%list_elem_of_singleton]%elem_of_app.
  - destruct (expert_name_last i) as [d Hd]. rewrite Hd in Hx. injection Hx as Hx.
    revert Hx. apply pretty_N_char_digit. by right.
  - by rewrite summarizer_name_last in Hx.
Qed.

End NodeNames.

Section GroupChain.
Context `{Env}.

Lemma add_nodes_fold_schema (f : nat -> string) (l : list (nat * (dict -> M dict))) w :
  let w' := fold_left (fun w ie => add_node (f ie.1) ie.2 w) l w in
  schema w' = schema w /\ input_schema w' = input_schema w
  /\ output_schema w' = output_schema w.
Proof.
  revert w. induction l as [|ie l IH]; intros w; simpl; [done|].
  destruct (IH (add_node (f ie.1) ie.2 w)) as (-> & -> & ->). done.
Qed.

Lemma add_edges_fold_schema (f g : nat -> string) (l : list nat) w :
  let w' := fold_left (fun w i => add_edge (f i) (g i) w) l w in
  schema w' = schema w /\ input_schema w' = input_schema w
  /\ output_schema w' = output_schema w.
Proof.
  revert w. induction l as [|i l IH]; intros w; simpl; [done|].
  destruct (IH (add_edge (f i) (g i) w)) as (-> & -> & ->). done.
Qed.

Lemma group_workflow_schema gn experts summ :
  schema (expert_group_workflow gn experts summ) = AgentState
  /\ input_schema (expert_group_workflow gn experts summ) = AgentState
  /\ output_schema (expert_group_workflow gn experts summ) = AgentState.
Proof.
  unfold expert_group_workflow. cbv zeta.
  set (names := (fun i : nat => "expert_" +:+ pretty i) <$> seq 0 (length experts)).
  destruct (add_nodes_fold_schema (item names) (zip (seq 0 (length experts)) experts)
              (new_StateGraph AgentState AgentState AgentState)) as (Hs & Hi & Ho).
  destruct names as [|first rest]; simpl.
  - by rewrite Hs, Hi, Ho.
  - destruct (add_edges_fold_schema
                (item (first :: rest)) (fun i => item (first :: rest) (i + 1))
                (seq 0 (length rest - 0))
                (add_edge START (item (first :: rest) 0)
                   (add_node (gn +:+ "_summarizer") summ
                      (fold_left (fun w ie => add_node (item (first :: rest) ie.1) ie.2 w)
                         (zip (seq 0 (length experts)) experts)
                         (new_StateGraph AgentState AgentState AgentState)))))
      as (-> & -> & ->).
    simpl. by rewrite Hs, Hi, Ho.
Qed.

(** The names, nodes and edges of a group graph, and what makes it a path
    for the engine. *)
Lemma group_workflow_is_path gn experts summ :
  let names := expert_names (length experts) ++ [gn +:+ "_summarizer"] in
  let workflow := expert_group_workflow gn experts summ in
  nodes workflow = zip names (experts ++ [summ])
  /\ edges workflow = path_edges (START :: names ++ [END])
  /\ length names = length (experts ++ [summ])
  /\ NoDup names /\ (START ∉ names) /\ (END ∉ names).
Proof.
  intros names workflow. split_and!.
  - subst names workflow. rewrite group_workflow_nodes.
    rewrite zip_with_app by by rewrite length_expert_names. done.
  - subst names workflow. rewrite group_workflow_edges. by rewrite <- app_assoc.
  - subst names. rewrite !length_app, length_expert_names. done.
  - apply group_names_NoDup.
  - by apply group_names_fresh.
  - by apply group_names_fresh.
Qed.

(** The run of a group graph: its nodes one after the other. *)
Lemma group_graph_runs_in_order gn experts summ input s :
  create_expert_group_graph gn experts summ input s
  = (final <- run_in_order AgentState
                (zip (expert_names (length experts) ++ [gn +:+ "_summarizer"])
                   (experts ++ [summ]))
                (Dict.restrict (Dict.keys AgentState) input) ;;
     ret (Dict.restrict (Dict.keys AgentState) final)) s.
Proof.
  destruct (group_workflow_is_path gn experts summ)
    as (Hnodes & Hedges & Hlen & Hnd & Hstart & Hend).
  destruct (group_workflow_schema gn experts summ) as (Hs & Hi & Ho).
  unfold create_expert_group_graph.
  rewrite (compile_path _ _ (experts ++ [summ]) Hnodes Hedges Hlen Hnd Hstart Hend).
  by rewrite Hs, Hi, Ho.
Qed.

(** X1. The graph of a group is the path from START through the experts
    in their declared order, then the summarizer, then END; for an empty
    list of experts START leads to the summarizer.  On that path the engine,
    as the specification describes it, finds one node ready at a time, the
    next one in order, so the run of the group is the run of the experts
    one after the other followed by the summarizer. *)
Theorem group_graph_is_a_chain gn experts summ :
  let names := expert_names (length experts) ++ [gn +:+ "_summarizer"] in
  let workflow := expert_group_workflow gn experts summ in
  nodes workflow = zip names (experts ++ [summ])
  /\ edges workflow = path_edges (START :: names ++ [END])
  /\ edges (expert_group_workflow gn [] summ)
     = [(START, gn +:+ "_summarizer"); (gn +:+ "_summarizer", END)]
  /\ (forall k, ready workflow (take k names) = option_list (nodes workflow !! k))
  /\ (forall input s,
         create_expert_group_graph gn experts summ input s
         = (final <- run_in_order AgentState (nodes workflow)
                       (Dict.restrict (Dict.keys AgentState) input) ;;
            ret (Dict.restrict (Dict.keys AgentState) final)) s).
Proof.
  intros names workflow.
  destruct (group_workflow_is_path gn experts summ)
    as (Hnodes & Hedges & Hlen & Hnd & Hstart & Hend).
  fold names workflow in Hnodes, Hedges, Hlen, Hnd, Hstart, Hend.
  split_and!; [done|done|reflexivity|..].
  - intros k. rewrite Hnodes.
    by apply (path_ready workflow names (experts ++ [summ])).
  - intros input s. rewrite Hnodes. apply group_graph_runs_in_order.
Qed.

End GroupChain.

(** ** The run of a group *)

Section GroupRun.
Context `{Env}.

(** An expert task returns one group entry and one search entry. *)
Lemma expert_shape sp an gk qk st s :
  gk <> "search_results" ->
  exists s' text entry,
    expert_analysis sp an gk qk st s = (s', Ok (expert_update gk an text entry)).
Proof.
  intros Hgk. unfold expert_analysis.
  destruct (expert_analysis_body sp an gk qk st s) as [s1 [u|e]] eqn:Hbody.
  - rewrite (try_except_ok _ _ _ _ _ Hbody).
    apply expert_body_returns in Hbody as (analysis & queries & results & ->).
    rewrite lit_two by done. by eexists _, _, _.
  - rewrite (try_except_raise _ _ _ _ _ Hbody). unfold ret, expert_analysis_error.
    rewrite lit_two by done. by eexists _, _, _.
Qed.

(** A summarizer returns one summary entry. *)
Lemma summarizer_shape gn names gk qk st s :
  exists s' text,
    summarize_group gn names gk qk st s = (s', Ok (summary_update gn text)).
Proof.
  unfold summarize_group.
  destruct (summarize_group_body gn names gk qk st s) as [s1 [u|e]] eqn:Hbody.
  - rewrite (try_except_ok _ _ _ _ _ Hbody).
    apply summarizer_body_returns in Hbody as (text & ->). by eexists _, _.
  - rewrite (try_except_raise _ _ _ _ _ Hbody). by eexists _, _.
Qed.

Lemma run_node_returns name (node : dict -> M dict) st s s1 u :
  node st {| world := world s; trace := [] |} = (s1, Ok u) ->
  run_node name node st s
  = ({| world := world s1; trace := trace s ++ [EvNode name st (trace s1)] |}, Ok u).
Proof. unfold run_node. by intros ->. Qed.

(** The experts of a group, run in order, each add their contribution. *)
Lemma run_experts_in_order gk qk (agents : list (string * string)) (names : list string)
  rest st s :
  gk <> "search_results" ->
  length names = length agents ->
  exists s' tes,
    length tes = length agents
    /\ run_in_order AgentState
         (zip names ((fun a => expert_analysis (persona a.1) a.2 gk qk) <$> agents) ++ rest)
         st s
       = run_in_order AgentState rest
           (fold_left (apply_update AgentState)
              (zip_with (fun an te => expert_update gk an te.1 te.2) (snd <$> agents) tes)
              st)
           s'.
Proof.
  intros Hgk. revert names st s.
  induction agents as [|[sp an] agents IH]; intros names st s Hlen.
  - exists s, []. destruct names; [|done]. done.
  - destruct names as [|name names]; [done|]. simpl in Hlen.
    destruct (expert_shape (persona sp) an gk qk st {| world := world s; trace := [] |} Hgk)
      as (s1 & text & entry & Hrun).
    destruct (IH names (apply_update AgentState st (expert_update gk an text entry))
                {| world := world s1;
                   trace := trace s ++ [EvNode name st (trace s1)] |})
      as (s' & tes & Hlen' & Hrest); [lia|].
    exists s', ((text, entry) :: tes). split; [simpl; lia|].
    simpl. unfold bind at 1.
    rewrite (run_node_returns name _ st s s1 _ Hrun). exact Hrest.
Qed.

(** The run of a group graph returns, and what it returns is the input
    with the contributions of its five experts and of its summarizer. *)
Lemma group_graph_run gn gk qk gname (agents : list (string * string)) summ_names st s :
  gk <> "search_results" ->
  exists s' o,
    length (analyses o) = length agents
    /\ create_expert_group_graph gn
         ((fun a => expert_analysis (persona a.1) a.2 gk qk) <$> agents)
         (summarize_group gname summ_names gk qk) st s
       = (s', Ok (group_result gk (snd <$> agents) gname o st)).
Proof.
  intros Hgk. rewrite group_graph_runs_in_order.
  rewrite length_fmap.
  rewrite zip_with_app by by rewrite length_expert_names, length_fmap.
  unfold bind at 1.
  destruct (run_experts_in_order gk qk agents (expert_names (length agents))
              (zip [gn +:+ "_summarizer"] [summarize_group gname summ_names gk qk])
              (Dict.restrict (Dict.keys AgentState) st) s Hgk)
    as (s1 & tes & Hlen & ->); [apply length_expert_names|].
  simpl. unfold bind at 1.
  match goal with
  | |- context [run_node ?n ?f ?st0 s1] =>
      destruct (summarizer_shape gname summ_names gk qk st0
                  {| world := world s1; trace := [] |}) as (s2 & text & Hsum);
      rewrite (run_node_returns n f st0 s1 s2 _ Hsum)
  end.
  unfold ret. eexists _, {| analyses := tes; summary := text |}. split; [done|].
  unfold group_result, group_updates. simpl. by rewrite fold_left_app.
Qed.

End GroupRun.

(** ** The run of the main graph *)

Section MainRun.
Context `{Env}.

Lemma run_loop_round m g finished st s rs :
  ready g finished = rs -> rs <> [] ->
  run_loop (S m) g finished st s
  = (updates <- run_ready rs st ;;
     run_loop m g (finished ++ (fst <$> rs))
       (fold_left (apply_update (schema g)) updates st)) s.
Proof. intros <- Hne. simpl. by destruct (ready g finished). Qed.

Lemma run_loop_done m g finished st s :
  ready g finished = [] -> run_loop (S m) g finished st s = (s, Ok st).
Proof. intros Hr. simpl. by rewrite Hr. Qed.

Lemma run_ready_cons name (node : dict -> M dict) rest st s s1 u :
  node st {| world := world s; trace := [] |} = (s1, Ok u) ->
  run_ready ((name, node) :: rest) st s
  = (updates <- run_ready rest st ;; ret (u :: updates))
      {| world := world s1; trace := trace s ++ [EvNode name st (trace s1)] |}.
Proof.
  intros Hrun. simpl. unfold bind at 1. by rewrite (run_node_returns _ _ _ _ _ _ Hrun).
Qed.

Lemma market_graph_eq :
  market_analysis_group_graph
  = create_expert_group_graph "market_analysis"
      ((fun a => expert_analysis (persona a.1) a.2 "group_1" "question_1") <$> market_experts)
      (summarize_group market_analysis_name (snd <$> market_experts) "group_1" "question_1").
Proof. reflexivity. Qed.

Lemma financial_graph_eq :
  financial_analysis_group_graph
  = create_expert_group_graph "financial_analysis"
      ((fun a => expert_analysis (persona a.1) a.2 "group_2" "question_2") <$> financial_experts)
      (summarize_group financial_analysis_name (snd <$> financial_experts) "group_2" "question_2").
Proof. reflexivity. Qed.

Lemma sectoral_graph_eq :
  sectoral_analysis_group_graph
  = create_expert_group_graph "sectoral_analysis"
      ((fun a => expert_analysis (persona a.1) a.2 "group_3" "question_3") <$> sectoral_experts)
      (summarize_group sectoral_analysis_name (snd <$> sectoral_experts) "group_3" "question_3").
Proof. reflexivity. Qed.

Lemma external_graph_eq :
  external_factors_group_graph
  = create_expert_group_graph "external_factors"
      ((fun a => expert_analysis (persona a.1) a.2 "group_4" "question_4") <$> external_experts)
      (summarize_group external_factors_name (snd <$> external_experts) "group_4" "question_4").
Proof. reflexivity. Qed.

Lemma strategy_graph_eq :
  strategy_group_graph
  = create_expert_group_graph "strategy"
      ((fun a => expert_analysis (persona a.1) a.2 "group_5" "question_5") <$> strategy_experts)
      (summarize_group strategy_name (snd <$> strategy_experts) "group_5" "question_5").
Proof. reflexivity. Qed.

Lemma market_graph_run st s :
  exists s' o,
    length (analyses o) = 5
    /\ market_analysis_group_graph st s
       = (s', Ok (group_result "group_1" (snd <$> market_experts) market_analysis_name o st)).
Proof.
  rewrite market_graph_eq.
  by apply (group_graph_run "market_analysis" "group_1" "question_1" market_analysis_name market_experts (snd <$> market_experts) st s).
Qed.

Lemma financial_graph_run st s :
  exists s' o,
    length (analyses o) = 5
    /\ financial_analysis_group_graph st s
       = (s', Ok (group_result "group_2" (snd <$> financial_experts)
                    financial_analysis_name o st)).
Proof.
  rewrite financial_graph_eq.
  by apply (group_graph_run "financial_analysis" "group_2" "question_2" financial_analysis_name financial_experts (snd <$> financial_experts) st s).
Qed.

Lemma sectoral_graph_run st s :
  exists s' o,
    length (analyses o) = 5
    /\ sectoral_analysis_group_graph st s
       = (s', Ok (group_result "group_3" (snd <$> sectoral_experts)
                    sectoral_analysis_name o st)).
Proof.
  rewrite sectoral_graph_eq.
  by apply (group_graph_run "sectoral_analysis" "group_3" "question_3" sectoral_analysis_name sectoral_experts (snd <$> sectoral_experts) st s).
Qed.

Lemma external_graph_run st s :
  exists s' o,
    length (analyses o) = 5
    /\ external_factors_group_graph st s
       = (s', Ok (group_result "group_4" (snd <$> external_experts)
                    external_factors_name o st)).
Proof.
  rewrite external_graph_eq.
  by apply (group_graph_run "external_factors" "group_4" "question_4" external_factors_name external_experts (snd <$> external_experts) st s).
Qed.

Lemma strategy_graph_run st s :
  exists s' o,
    length (analyses o) = 5
    /\ strategy_group_graph st s
       = (s', Ok (group_result "group_5" (snd <$> strategy_experts) strategy_name o st)).
Proof.
  rewrite strategy_graph_eq.
  by apply (group_graph_run "strategy" "group_5" "question_5" strategy_name strategy_experts (snd <$> strategy_experts) st s).
Qed.

End MainRun.
Section MainRounds.
Context `{Env}.

Lemma run_ready_nil st (s : Sys) : run_ready [] st s = (s, Ok []).
Proof. reflexivity. Qed.

Lemma run_loop_next m g fields finished finished' st st' s s1 rs updates :
  schema g = fields ->
  ready g finished = rs -> rs <> [] ->
  finished ++ (fst <$> rs) = finished' ->
  run_ready rs st s = (s1, Ok updates) ->
  fold_left (apply_update fields) updates st = st' ->
  run_loop (S m) g finished st s = run_loop m g finished' st' s1.
Proof.
  intros <- Hr Hne <- Hrun <-. rewrite (run_loop_round m g finished st s rs Hr Hne).
  by rewrite (bind_ok _ _ _ _ _ Hrun).
Qed.

Lemma main_schema : schema main_workflow = AgentState.
Proof. reflexivity. Qed.

Lemma main_input_keys : Dict.keys (input_schema main_workflow) = ["question"].
Proof. reflexivity. Qed.

Lemma main_output_schema : output_schema main_workflow = OutputState.
Proof. reflexivity. Qed.

Lemma main_nodes_length : length (nodes main_workflow) = 8.
Proof. reflexivity. Qed.

Lemma ready_0 : ready main_workflow [] = [("initializer", initializer)].
Proof. reflexivity. Qed.

Lemma ready_1 :
  ready main_workflow ["initializer"]
  = [ ("market_analysis_group", market_analysis_group_graph);
      ("financial_analysis_group", financial_analysis_group_graph);
      ("sectoral_analysis_group", sectoral_analysis_group_graph);
      ("external_factors_group", external_factors_group_graph) ].
Proof. reflexivity. Qed.

Lemma ready_2 :
  ready main_workflow
    [ "initializer"; "market_analysis_group"; "financial_analysis_group";
      "sectoral_analysis_group"; "external_factors_group" ]
  = [("join", join_node)].
Proof. reflexivity. Qed.

Lemma ready_3 :
  ready main_workflow
    [ "initializer"; "market_analysis_group"; "financial_analysis_group";
      "sectoral_analysis_group"; "external_factors_group"; "join" ]
  = [("strategy_group", strategy_group_graph)].
Proof. reflexivity. Qed.

Lemma ready_4 :
  ready main_workflow
    [ "initializer"; "market_analysis_group"; "financial_analysis_group";
      "sectoral_analysis_group"; "external_factors_group"; "join"; "strategy_group" ]
  = [("final_synthesis", final_synthesizer)].
Proof. reflexivity. Qed.

Lemma ready_5 :
  ready main_workflow
    [ "initializer"; "market_analysis_group"; "financial_analysis_group";
      "sectoral_analysis_group"; "external_factors_group"; "join"; "strategy_group";
      "final_synthesis" ]
  = [].
Proof. reflexivity. Qed.

Lemma initializer_round question (s : Sys) :
  run_ready [("initializer", initializer)] [("question", PStr question)] s
  = ({| world := world s;
        trace := trace s ++ [EvNode "initializer" [("question", PStr question)] []] |},
     Ok [question_copies question]).
Proof. reflexivity. Qed.

Lemma groups_round st (s : Sys) :
  exists s' o1 o2 o3 o4 i1 i2 i3 i4,
    (length (analyses o1) = 5 /\ length (analyses o2) = 5
     /\ length (analyses o3) = 5 /\ length (analyses o4) = 5)
    /\ run_ready
         [ ("market_analysis_group", market_analysis_group_graph);
           ("financial_analysis_group", financial_analysis_group_graph);
           ("sectoral_analysis_group", sectoral_analysis_group_graph);
           ("external_factors_group", external_factors_group_graph) ] st s
       = (s', Ok [ group_result "group_1" (snd <$> market_experts)
                     market_analysis_name o1 st;
                   group_result "group_2" (snd <$> financial_experts)
                     financial_analysis_name o2 st;
                   group_result "group_3" (snd <$> sectoral_experts)
                     sectoral_analysis_name o3 st;
                   group_result "group_4" (snd <$> external_experts)
                     external_factors_name o4 st ])
    /\ trace s'
       = trace s ++ [ EvNode "market_analysis_group" st i1;
                      EvNode "financial_analysis_group" st i2;
                      EvNode "sectoral_analysis_group" st i3;
                      EvNode "external_factors_group" st i4 ].
Proof.
  destruct (market_graph_run st {| world := world s; trace := [] |})
    as (sa & o1 & Hl1 & Ha).
  rewrite (run_ready_cons _ _ _ _ _ _ _ Ha). unfold bind at 1.
  match goal with |- context [run_ready _ st ?s2] =>
    destruct (financial_graph_run st {| world := world s2; trace := [] |})
      as (sb & o2 & Hl2 & Hb) end.
  rewrite (run_ready_cons _ _ _ _ _ _ _ Hb). unfold bind at 1.
  match goal with |- context [run_ready _ st ?s3] =>
    destruct (sectoral_graph_run st {| world := world s3; trace := [] |})
      as (sc & o3 & Hl3 & Hc) end.
  rewrite (run_ready_cons _ _ _ _ _ _ _ Hc). unfold bind at 1.
  match goal with |- context [run_ready _ st ?s4] =>
    destruct (external_graph_run st {| world := world s4; trace := [] |})
      as (sd & o4 & Hl4 & Hd) end.
  rewrite (run_ready_cons _ _ _ _ _ _ _ Hd). unfold bind at 1.
  rewrite run_ready_nil. unfold ret.
  eexists _, o1, o2, o3, o4, _, _, _, _. split; [done|]. split; [reflexivity|].
  simpl. rewrite <- !app_assoc. reflexivity.
Qed.

Lemma join_round st (s : Sys) :
  run_ready [("join", join_node)] st s
  = ({| world := world s; trace := trace s ++ [EvNode "join" st []] |}, Ok [[]]).
Proof. reflexivity. Qed.

Lemma strategy_round st (s : Sys) :
  exists s' o5 i5,
    length (analyses o5) = 5
    /\ run_ready [("strategy_group", strategy_group_graph)] st s
       = (s', Ok [group_result "group_5" (snd <$> strategy_experts) strategy_name o5 st])
    /\ trace s' = trace s ++ [EvNode "strategy_group" st i5].
Proof.
  destruct (strategy_graph_run st {| world := world s; trace := [] |})
    as (se & o5 & Hl5 & He).
  rewrite (run_ready_cons _ _ _ _ _ _ _ He). unfold bind at 1.
  rewrite run_ready_nil. unfold ret.
  eexists _, o5, _. split; [done|]. split; reflexivity.
Qed.

Lemma final_round st (s : Sys) :
  exists s' report i6,
    run_ready [("final_synthesis", final_synthesizer)] st s
    = (s', Ok [[("final_report", PStr report)]])
    /\ trace s' = trace s ++ [EvNode "final_synthesis" st i6].
Proof.
  destruct (final_synthesizer_returns st {| world := world s; trace := [] |})
    as (sf & report & new & Hf & _ & _).
  rewrite (run_ready_cons _ _ _ _ _ _ _ Hf). unfold bind at 1.
  rewrite run_ready_nil. unfold ret.
  eexists _, report, _. split; reflexivity.
Qed.

End MainRounds.

Section MainAssembly.
Context `{Env}.

Lemma main_graph_unfold input (s : Sys) :
  main_graph input s
  = (final <- run_loop 8 main_workflow [] (Dict.restrict ["question"] input) ;;
     ret (Dict.restrict (Dict.keys OutputState) final)) s.
Proof.
  unfold main_graph, create_main_graph, compile.
  by rewrite main_nodes_length, main_input_keys, main_output_schema.
Qed.

Lemma input_question question :
  Dict.restrict ["question"] [("question", PStr question)] = [("question", PStr question)].
Proof. reflexivity. Qed.

Lemma state_after_join st : fold_left (apply_update AgentState) [[]] st = st.
Proof. reflexivity. Qed.

(** The run of the main graph on a question: it returns, the state it
    returns is the one made of the contributions of the five groups and of
    the final synthesis, and its nodes ran in this order on these
    snapshots. *)
Lemma main_graph_run question (s : Sys) :
  exists s' o1 o2 o3 o4 o5 report i1 i2 i3 i4 i5 i6,
    (length (analyses o1) = 5 /\ length (analyses o2) = 5 /\ length (analyses o3) = 5
     /\ length (analyses o4) = 5 /\ length (analyses o5) = 5)
    /\ main_graph [("question", PStr question)] s
       = (s', Ok (main_output question o1 o2 o3 o4 o5 report))
    /\ trace s'
       = trace s
         ++ [ EvNode "initializer" [("question", PStr question)] [];
              EvNode "market_analysis_group" (after_initializer question) i1;
              EvNode "financial_analysis_group" (after_initializer question) i2;
              EvNode "sectoral_analysis_group" (after_initializer question) i3;
              EvNode "external_factors_group" (after_initializer question) i4;
              EvNode "join" (after_groups question o1 o2 o3 o4) [];
              EvNode "strategy_group" (after_groups question o1 o2 o3 o4) i5;
              EvNode "final_synthesis" (after_strategy question o1 o2 o3 o4 o5) i6 ].
Proof.
  pose proof (initializer_round question s) as Hr0.
  set (s1 := {| world := world s;
                trace := trace s ++ [EvNode "initializer" [("question", PStr question)] []] |})
    in Hr0.
  destruct (groups_round (after_initializer question) s1)
    as (s2 & o1 & o2 & o3 & o4 & i1 & i2 & i3 & i4 & Hlen & Hr1 & Ht1).
  pose proof (join_round (after_groups question o1 o2 o3 o4) s2) as Hr2.
  set (s3 := {| world := world s2; trace := _ |}) in Hr2.
  destruct (strategy_round (after_groups question o1 o2 o3 o4) s3)
    as (s4 & o5 & i5 & Hl5 & Hr3 & Ht3).
  destruct (final_round (after_strategy question o1 o2 o3 o4 o5) s4)
    as (s5 & report & i6 & Hr4 & Ht4).
  exists s5, o1, o2, o3, o4, o5, report, i1, i2, i3, i4, i5, i6.
  split; [tauto|]. split.
  - rewrite main_graph_unfold, input_question. unfold bind.
    rewrite (run_loop_next 7 main_workflow AgentState [] ["initializer"]
               _ (after_initializer question) s s1 _ _
               main_schema ready_0 ltac:(done) eq_refl Hr0 eq_refl).
    rewrite (run_loop_next 6 main_workflow AgentState _
               [ "initializer"; "market_analysis_group"; "financial_analysis_group";
                 "sectoral_analysis_group"; "external_factors_group" ]
               _ (after_groups question o1 o2 o3 o4) s1 s2 _ _
               main_schema ready_1 ltac:(done) eq_refl Hr1 eq_refl).
    rewrite (run_loop_next 5 main_workflow AgentState _
               [ "initializer"; "market_analysis_group"; "financial_analysis_group";
                 "sectoral_analysis_group"; "external_factors_group"; "join" ]
               _ (after_groups question o1 o2 o3 o4) s2 s3 _ _
               main_schema ready_2 ltac:(done) eq_refl Hr2 (state_after_join _)).
    rewrite (run_loop_next 4 main_workflow AgentState _
               [ "initializer"; "market_analysis_group"; "financial_analysis_group";
                 "sectoral_analysis_group"; "external_factors_group"; "join";
                 "strategy_group" ]
               _ (after_strategy question o1 o2 o3 o4 o5) s3 s4 _ _
               main_schema ready_3 ltac:(done) eq_refl Hr3 eq_refl).
    rewrite (run_loop_round 3 main_workflow _ _ s4 _ ready_4) by done.
    rewrite (bind_ok _ _ _ _ _ Hr4).
    rewrite (run_loop_done 2 main_workflow _ _ s5 ready_5).
    rewrite main_schema. reflexivity.
  - rewrite Ht4, Ht3. subst s3. simpl. rewrite Ht1. subst s1. simpl.
    rewrite <- !app_assoc. reflexivity.
Qed.

End MainAssembly.

(** ** What the main run returns *)

Section MainOutcome.
Context `{Env}.

Lemma five_analyses (o : group_outcome) :
  length (analyses o) = 5 ->
  exists t1 e1 t2 e2 t3 e3 t4 e4 t5 e5 sm,
    o = {| analyses := [(t1, e1); (t2, e2); (t3, e3); (t4, e4); (t5, e5)];
           summary := sm |}.
Proof.
  destruct o as [l sm]. simpl. intros Hlen.
  destruct l as [|[t1 e1] [|[t2 e2] [|[t3 e3] [|[t4 e4] [|[t5 e5] [|? ?]]]]]];
    try discriminate.
  by eexists _, _, _, _, _, _, _, _, _, _, _.
Qed.

(** The fields of the state the main run returns. *)
Lemma main_output_fields question o1 o2 o3 o4 o5 report :
  length (analyses o1) = 5 -> length (analyses o2) = 5 -> length (analyses o3) = 5 ->
  length (analyses o4) = 5 -> length (analyses o5) = 5 ->
  let out := main_output question o1 o2 o3 o4 o5 report in
  Dict.keys out
  = [ "question_1"; "question_2"; "question_3"; "question_4"; "question_5";
      "group_1"; "search_results"; "group_summaries";
      "group_2"; "group_3"; "group_4"; "group_5"; "final_report" ]
  /\ field_keys out "group_1" = snd <$> market_experts
  /\ field_keys out "group_2" = snd <$> financial_experts
  /\ field_keys out "group_3" = snd <$> sectoral_experts
  /\ field_keys out "group_4" = snd <$> external_experts
  /\ field_keys out "group_5" = snd <$> strategy_experts
  /\ field_keys out "search_results"
     = (fun name => name +:+ "_search")
         <$> (snd <$> market_experts ++ financial_experts ++ sectoral_experts
                      ++ external_experts ++ strategy_experts)
  /\ field_keys out "group_summaries"
     = [ market_analysis_name; financial_analysis_name; sectoral_analysis_name;
         external_factors_name; strategy_name ]
  /\ Dict.get out "final_report" = Some (PStr report)
  /\ Dict.get out "question" = None
  /\ Dict.get out "analyses" = None
  /\ Forall (fun k => Dict.get out k = Some (PStr question))
       ["question_1"; "question_2"; "question_3"; "question_4"; "question_5"].
Proof.
  intros (? & ? & ? & ? & ? & ? & ? & ? & ? & ? & ? & ->)%five_analyses
         (? & ? & ? & ? & ? & ? & ? & ? & ? & ? & ? & ->)%five_analyses
         (? & ? & ? & ? & ? & ? & ? & ? & ? & ? & ? & ->)%five_analyses
         (? & ? & ? & ? & ? & ? & ? & ? & ? & ? & ? & ->)%five_analyses
         (? & ? & ? & ? & ? & ? & ? & ? & ? & ? & ? & ->)%five_analyses.
  cbv zeta. split_and!; try by_vm.
  repeat constructor; by_vm.
Qed.

End MainOutcome.

(** ** Searches *)

Section Searches.
Context `{Env}.

(** One turn of the search loop returns, and records one search. *)
Lemma search_turn (all_results : list pyval) query (s : Sys) :
  exists w' found,
    try_except
      (results <- call (EvSearch query) (simple_search query) ;;
       items <- lift (py_iter results) ;;
       ret (all_results ++ items))
      (fun _ => ret all_results) s
    = ({| world := w'; trace := trace s ++ [EvSearch query] |}, Ok (all_results ++ found))
    /\ (forall e, (simple_search query (world s)).2 = Raise e -> found = []).
Proof.
  unfold try_except, bind, call, lift, ret.
  destruct (simple_search query (world s)) as [w' [results|e]] eqn:Hs; simpl.
  - destruct (py_iter results) as [items|e]; simpl.
    + exists w', items. split; [done|]. intros e [=].
    + exists w', []. rewrite app_nil_r. split; [done|]. intros e' [=].
  - exists w', []. by rewrite app_nil_r.
Qed.

Lemma search_loop qs (all_results : list pyval) (s : Sys) :
  exists s' found,
    for_each qs
      (fun all_results query =>
         try_except
           (results <- call (EvSearch query) (simple_search query) ;;
            items <- lift (py_iter results) ;;
            ret (all_results ++ items))
           (fun _ => ret all_results))
      all_results s
    = (s', Ok (all_results ++ found))
    /\ trace s' = trace s ++ (EvSearch <$> qs)
    /\ ((forall q w, exists e, (simple_search q w).2 = Raise e) -> found = []).
Proof.
  revert all_results s. induction qs as [|q qs IH]; intros all_results s.
  - exists s, []. simpl. by rewrite !app_nil_r.
  - destruct (search_turn all_results q s) as (w' & found1 & Hturn & Hdown).
    destruct (IH (all_results ++ found1)
                {| world := w'; trace := trace s ++ [EvSearch q] |})
      as (s' & found2 & Hrest & Htrace & Hdown').
    exists s', (found1 ++ found2). split_and!.
    + simpl. unfold bind at 1. rewrite Hturn. rewrite Hrest. by rewrite app_assoc.
    + rewrite Htrace. simpl. by rewrite <- app_assoc.
    + intros Hall. rewrite (Hdown' Hall). destruct (Hall q (world s)) as [e He].
      by rewrite (Hdown e He).
Qed.

(** X2. The searches of an expert never abort the task: for whatever can be
    iterated, list, text or mapping, every item is searched once, in order,
    whether or not earlier searches failed, and the step returns; when every
    search fails it returns no result at all. *)
Theorem searches_never_abort queries qs name (s : Sys) :
  py_iter queries = Ok qs ->
  exists s' results,
    perform_searches queries name s = (s', Ok results)
    /\ trace s' = trace s ++ (EvSearch <$> qs)
    /\ ((forall q w, exists e, (simple_search q w).2 = Raise e) -> results = []).
Proof.
  intros Hiter. unfold perform_searches. unfold bind at 1. unfold lift at 1. rewrite Hiter.
  destruct (search_loop qs [] s) as (s' & found & Hloop & Htrace & Hdown).
  exists s', found. cbv beta iota. by rewrite Hloop.
Qed.

(** What cannot be iterated is not searched: the step raises before any
    search. *)
Lemma searches_need_iterable queries name (s : Sys) e :
  py_iter queries = Raise e -> perform_searches queries name s = (s, Raise e).
Proof. intros Hiter. unfold perform_searches, bind, lift. by rewrite Hiter. Qed.

(** X3. When the decoded reply has a queries entry that cannot be iterated,
    such as null or a number, the expert task ends after its one call of the
    model: nothing is searched or analysed, and the task returns the error
    entries with the message of the TypeError. *)
Theorem queries_must_be_iterable sp an gk qk state (s : Sys) llm w1 content queries e :
  let question := state_get state qk (PStr EmptyString) in
  get_model s = (s, Ok llm) ->
  chat_invoke llm (query_messages sp question an) (world s) = (w1, Ok content) ->
  parse_queries content = Ok queries ->
  py_iter queries = Raise e ->
  expert_analysis sp an gk qk state s
  = ({| world := w1; trace := trace s ++ [EvModel llm (query_messages sp question an)] |},
     Ok (expert_analysis_error an gk e)).
Proof.
  intros question Hm Hcall Hparse Hiter.
  unfold expert_analysis. erewrite try_except_raise; [reflexivity|].
  unfold expert_analysis_body. fold question.
  rewrite (bind_ok _ _ _ _ _ Hm).
  erewrite bind_ok.
  2:{ rewrite (generate_search_queries_run _ _ _ _ _ _ _ Hcall). by rewrite Hparse. }
  erewrite bind_raise; [reflexivity|]. by apply searches_need_iterable.
Qed.

End Searches.

(** The searches on a text: one search per character. *)
Lemma searches_never_abort_witness :
  let E := Demo.env Demo.search_down in
  exists s' results,
    @perform_searches E (PStr "ab") "market_analyst" (Demo.sys0 Demo.search_down)
    = (s', Ok results)
    /\ trace s' = [EvSearch (PStr "a"); EvSearch (PStr "b")]
    /\ ((forall q w, exists e, (@simple_search E q w).2 = Raise e) -> results = []).
Proof.
  intros E.
  apply (searches_never_abort (H := E) (PStr "ab") [PStr "a"; PStr "b"]
           "market_analyst" (Demo.sys0 Demo.search_down)).
  reflexivity.
Defined.

(** A reply whose queries entry is null. *)
Lemma queries_must_be_iterable_witness :
  let E := Demo.env Demo.null_queries in
  (@expert_analysis E "P" "market_analyst" "group_1" "question_1" Demo.asked
     (Demo.sys0 Demo.null_queries)).2
  = Ok [ ("group_1",
          PDict [("market_analyst",
                  PStr "Error in analysis: 'NoneType' object is not iterable")]);
         ("search_results",
          PDict [("market_analyst_search",
                  PDict [("error", PStr "'NoneType' object is not iterable")])]) ].
Proof.
  intros E.
  rewrite (queries_must_be_iterable (H := E) "P" "market_analyst" "group_1" "question_1"
             Demo.asked (Demo.sys0 Demo.null_queries) Demo.llm0 tt
             (Str.cat ["{"; Str.dq; "queries"; Str.dq; ": null}"]) PNone
             "'NoneType' object is not iterable");
    by_vm.
Defined.

(** ** The compiled search results *)

Section Compilation.
Context `{Env}.

Lemma compile_result_dict i d :
  compile_result i (PDict d)
  = Ok (Str.cat [ "Result "; pretty (i + 1)%nat; ":"; Str.newline;
                  "Title: ";
                  py_str (from_option id (PStr "No title") (Dict.get d "title"));
                  Str.newline;
                  "Link: ";
                  py_str (from_option id (PStr "No link") (Dict.get d "link"));
                  Str.newline;
                  "Snippet: ";
                  py_str (from_option id (PStr "No snippet") (Dict.get d "snippet"));
                  Str.newline; Str.newline ]).
Proof. reflexivity. Qed.

Lemma compile_result_ok i r :
  (exists block, compile_result i r = Ok block) <-> (exists d, r = PDict d).
Proof.
  split.
  - intros [block Hb]. destruct r; try discriminate. eauto.
  - intros [d ->]. rewrite compile_result_dict. eauto.
Qed.

Lemma compile_from_app i l1 l2 compiled :
  compile_from i (l1 ++ l2) compiled
  = (mid <-? compile_from i l1 compiled ;; compile_from (i + length l1) l2 mid).
Proof.
  revert i compiled. induction l1 as [|r l1 IH]; intros i compiled; simpl.
  - by rewrite Nat.add_0_r.
  - destruct (compile_result i r) as [block|e]; simpl; [|done].
    rewrite IH. by rewrite Nat.add_succ_comm.
Qed.

Lemma compile_from_ok i results compiled :
  (exists text, compile_from i results compiled = Ok text)
  <-> Forall (fun r => exists d, r = PDict d) results.
Proof.
  revert i compiled. induction results as [|r results IH]; intros i compiled; simpl.
  - split; eauto.
  - split.
    + intros [text Ht].
      destruct (compile_result i r) as [block|e] eqn:Hb; simpl in Ht; [|done].
      constructor.
      * apply (compile_result_ok i r). eauto.
      * apply (IH (S i) (compiled +:+ block)). eauto.
    + intros Hall. apply Forall_cons in Hall as [[d ->] Hall].
      rewrite compile_result_dict. simpl. by apply IH.
Qed.

(** X4. The compilation returns exactly when every result is a mapping,
    otherwise it raises; the empty list gives the bare heading, and a
    further record adds one block, numbered with its position counted from
    one, in which a missing title, link or snippet is replaced by its
    placeholder. *)
Theorem compilation_numbers_the_records results d :
  ((exists text, compile_search_results results = Ok text)
   <-> Forall (fun r => exists d, r = PDict d) results)
  /\ compile_search_results [] = Ok (Str.cat ["SEARCH RESULTS:"; Str.newline; Str.newline])
  /\ (forall text,
         compile_search_results results = Ok text ->
         compile_search_results (results ++ [PDict d])
         = Ok (text +:+
               Str.cat [ "Result "; pretty (length results + 1)%nat; ":"; Str.newline;
                         "Title: ";
                         py_str (from_option id (PStr "No title") (Dict.get d "title"));
                         Str.newline;
                         "Link: ";
                         py_str (from_option id (PStr "No link") (Dict.get d "link"));
                         Str.newline;
                         "Snippet: ";
                         py_str (from_option id (PStr "No snippet")
                                   (Dict.get d "snippet"));
                         Str.newline; Str.newline ])).
Proof.
  split_and!.
  - apply compile_from_ok.
  - reflexivity.
  - intros text Ht. unfold compile_search_results in *.
    rewrite compile_from_app, Ht. unfold rbind at 1.
    change (0 + length results) with (length results). cbn [compile_from].
    by rewrite compile_result_dict.
Qed.

End Compilation.

(** ** Without an API key *)

Section NoKey.
Context `{Env}.

Lemma get_model_without_key (s : Sys) :
  os_getenv "OPENAI_API_KEY" (world s) = None
  \/ os_getenv "OPENAI_API_KEY" (world s) = Some EmptyString ->
  get_model s = (s, Raise "No API key found for OpenAI").
Proof. unfold get_model. by intros [-> | ->]. Qed.

(** X5. With the API key unset or empty no task calls a collaborator: the state
    of the world and the trace are left as they were, an expert task returns
    its error entries with the message of [get_model], and the summarizer
    and the final synthesis return their error texts. *)
Theorem no_key_no_calls sp an gk qk gn names state (s : Sys) :
  os_getenv "OPENAI_API_KEY" (world s) = None
  \/ os_getenv "OPENAI_API_KEY" (world s) = Some EmptyString ->
  expert_analysis sp an gk qk state s
  = (s, Ok (expert_analysis_error an gk "No API key found for OpenAI"))
  /\ (exists e, summarize_group gn names gk qk state s
                = (s, Ok (summarize_group_error gn e)))
  /\ (exists e, final_synthesizer state s
                = (s, Ok [("final_report", PStr ("Error in final synthesis: " +:+ e))])).
Proof.
  intros Hkey. pose proof (get_model_without_key s Hkey) as Hm. split_and!.
  - unfold expert_analysis, expert_analysis_body, try_except, bind. by rewrite Hm.
  - unfold summarize_group, summarize_group_body, try_except, bind, lift.
    destruct (format_expert_analyses gk state) as [a|e]; [|by eexists].
    destruct (format_all_search_info state names EmptyString) as [i|e]; [|by eexists].
    rewrite Hm. by eexists.
  - unfold final_synthesizer, final_synthesizer_body, try_except, bind, lift.
    destruct (format_group_summaries state) as [a|e]; [|by eexists].
    rewrite Hm. by eexists.
Qed.

End NoKey.

(** The three tasks when the API key is the empty string. *)
Lemma no_key_no_calls_witness :
  let E := Demo.env Demo.empty_key in
  let s := Demo.sys0 Demo.empty_key in
  @expert_analysis E "P" "market_analyst" "group_1" "question_1" Demo.asked s
  = (s, Ok (expert_analysis_error "market_analyst" "group_1" "No API key found for OpenAI"))
  /\ (exists e, @summarize_group E "Market" ["market_analyst"] "group_1" "question_1"
                  Demo.asked s
                = (s, Ok (summarize_group_error "Market" e)))
  /\ (exists e, @final_synthesizer E Demo.asked s
                = (s, Ok [("final_report", PStr ("Error in final synthesis: " +:+ e))])).
Proof.
  intros E s.
  apply (no_key_no_calls (H := E) "P" "market_analyst" "group_1" "question_1" "Market"
           ["market_analyst"] Demo.asked s).
  right. reflexivity.
Defined.

(** ** The question key of a group *)

Section QuestionKey.
Context `{Env}.

Lemma chars_nonempty c s : Str.chars (String c s) <> [].
Proof. simpl. by destruct (Str.next_is_cont s), (Str.chars s). Qed.

Lemma chars_nil s : Str.chars s = [] <-> s = EmptyString.
Proof.
  split; [|by intros ->]. destruct s as [|c s]; [done|].
  intros Hc. by destruct (chars_nonempty c s).
Qed.

(** A character, one byte or several, is a character of its own at the
    end of a string. *)
Lemma chars_snoc p c :
  Str.chars c = [c] ->
  Str.next_is_cont c = false ->
  Str.chars (p +:+ c) = Str.chars p ++ [c].
Proof.
  intros Hone Hlead. induction p as [|a p IH]; [done|].
  change (String a p +:+ c) with (String a (p +:+ c)).
  cbn [Str.chars]. rewrite IH.
  destruct p as [|b p].
  - change (EmptyString +:+ c) with c. by rewrite Hlead.
  - change (Str.next_is_cont (String b p +:+ c)) with (Str.is_cont b).
    change (Str.next_is_cont (String b p)) with (Str.is_cont b).
    pose proof (chars_nonempty b p) as Hne.
    destruct (Str.chars (String b p)) as [|h t]; [done|].
    by destruct (Str.is_cont b).
Qed.

Lemma question_key_none gk : question_key_of gk = None <-> gk = EmptyString.
Proof.
  unfold question_key_of, Str.last_char.
  destruct (last (Str.chars gk)) as [c|] eqn:Hlast; simpl.
  - split; [done|]. intros ->. done.
  - split; [|done]. intros _. by apply chars_nil, last_None.
Qed.

(** X6. The question key of a group is made from the last character of its
    group key alone: whatever comes before it, a key that ends in the
    character [c], of one byte or of several, reads question_[c], so a key
    group_10 reads question_0.  Building the agent or the summarizer fails
    on the empty group key and on no other. *)
Theorem question_key_takes_last_character p c sp an gn names :
  Str.chars c = [c] ->
  Str.next_is_cont c = false ->
  question_key_of (p +:+ c) = Some ("question_" +:+ c)
  /\ create_expert_agent sp an (p +:+ c)
     = Some (expert_analysis sp an (p +:+ c) ("question_" +:+ c))
  /\ create_group_summarizer gn names (p +:+ c)
     = Some (summarize_group gn names (p +:+ c) ("question_" +:+ c))
  /\ (forall gk, question_key_of gk = None <-> gk = EmptyString)
  /\ (forall gk, create_expert_agent sp an gk = None <-> gk = EmptyString)
  /\ (forall gk, create_group_summarizer gn names gk = None <-> gk = EmptyString).
Proof.
  intros Hone Hlead.
  assert (question_key_of (p +:+ c) = Some ("question_" +:+ c)) as Hkey.
  { unfold question_key_of, Str.last_char. rewrite chars_snoc by done.
    by rewrite last_snoc. }
  split_and!.
  - done.
  - unfold create_expert_agent. by rewrite Hkey.
  - unfold create_group_summarizer. by rewrite Hkey.
  - apply question_key_none.
  - intros gk. rewrite <- question_key_none. unfold create_expert_agent.
    by destruct (question_key_of gk).
  - intros gk. rewrite <- question_key_none. unfold create_group_summarizer.
    by destruct (question_key_of gk).
Qed.

End QuestionKey.

(** A tenth group would read the question copy numbered 0, and a group key
    that ends in a letter of two bytes reads the copy named by that letter. *)
Lemma question_key_takes_last_character_witness :
  let E := Demo.env Demo.nominal in
  @question_key_of "group_10" = Some "question_0"
  /\ @create_expert_agent E "P" "analyst" "group_10"
     = Some (@expert_analysis E "P" "analyst" "group_10" "question_0")
  /\ @question_key_of "nhóm_é" = Some "question_é".
Proof.
  intros E.
  destruct (question_key_takes_last_character (H := E) "group_1" "0"
              "P" "analyst" "G" []) as (Hk & Ha & _); [reflexivity|reflexivity|].
  destruct (question_key_takes_last_character (H := E) "nhóm_" "é"
              "P" "analyst" "G" []) as (Hk2 & _); [reflexivity|reflexivity|].
  split_and!; [exact Hk|exact Ha|exact Hk2].
Defined.

(** ** Splitting and the JSON portion of a reply *)

Section Splitting.

Lemma split_go_nonempty sep skip cur s : 1 <= length (Str.split_go sep skip cur s).
Proof.
  revert skip cur. induction s as [|c s IH]; intros skip cur; simpl; [lia|].
  destruct skip; [|apply IH].
  destruct (Str.startswith sep (String c s)); [simpl; lia|apply IH].
Qed.

(** A string that contains the separator splits in two pieces at least. *)
Lemma split_go_contains sep cur s :
  sep <> EmptyString ->
  Str.contains sep s = true ->
  2 <= length (Str.split_go sep 0 cur s).
Proof.
  intros Hsep. revert cur. induction s as [|c s IH]; intros cur Hc.
  - destruct sep; [done|]. simpl in Hc. done.
  - cbn [Str.contains] in Hc. cbn [Str.split_go].
    destruct (Str.startswith sep (String c s)).
    + pose proof (split_go_nonempty sep (String.length sep - 1) EmptyString s).
      simpl. lia.
    + apply IH. by rewrite orb_false_l in Hc.
Qed.

Lemma split_index_0 sep s : exists piece, py_index (Str.split sep s) 0 = Ok piece.
Proof.
  unfold py_index, Str.split.
  pose proof (split_go_nonempty sep 0 EmptyString s) as Hlen.
  destruct (Str.split_go sep 0 EmptyString s) as [|piece rest]; simpl in *; [lia|].
  by exists piece.
Qed.

Lemma split_index_1 sep s :
  sep <> EmptyString ->
  Str.contains sep s = true ->
  exists piece, py_index (Str.split sep s) 1 = Ok piece.
Proof.
  intros Hsep Hc. unfold py_index, Str.split.
  pose proof (split_go_contains sep EmptyString s Hsep Hc) as Hlen.
  destruct (Str.split_go sep 0 EmptyString s) as [|p0 [|piece rest]]; simpl in *; [lia..|].
  by exists piece.
Qed.

Lemma startswith_app sep rest : Str.startswith sep (sep +:+ rest) = true.
Proof.
  induction sep as [|a sep IH]; [done|].
  change (String a sep +:+ rest) with (String a (sep +:+ rest)).
  simpl. by rewrite decide_True.
Qed.

Lemma contains_app a sep rest : Str.contains sep (a +:+ (sep +:+ rest)) = true.
Proof.
  induction a as [|c a IH].
  - change (EmptyString +:+ (sep +:+ rest)) with (sep +:+ rest).
    destruct (sep +:+ rest) eqn:E; simpl; rewrite <- ?E, ?startswith_app; done.
  - change (String c a +:+ (sep +:+ rest)) with (String c (a +:+ (sep +:+ rest))).
    cbn [Str.contains]. rewrite IH. apply orb_true_r.
Qed.

Lemma contains_char_cons c0 c a :
  Str.contains (String c0 EmptyString) (String c a) = false ->
  c0 <> c /\ Str.contains (String c0 EmptyString) a = false.
Proof.
  cbn [Str.contains Str.startswith]. destruct (decide (c0 = c)); [done|].
  by rewrite orb_false_l.
Qed.

(** A piece free of the first character of the separator is read whole. *)
Lemma split_go_free c0 sep' a cur rest :
  Str.contains (String c0 EmptyString) a = false ->
  Str.split_go (String c0 sep') 0 cur (a +:+ rest)
  = Str.split_go (String c0 sep') 0 (cur +:+ a) rest.
Proof.
  revert cur. induction a as [|c a IH]; intros cur Hfree.
  - by rewrite append_nil_r.
  - change (String c a +:+ rest) with (String c (a +:+ rest)).
    apply contains_char_cons in Hfree as [Hc Hfree].
    cbn [Str.split_go Str.startswith]. rewrite decide_False by done.
    rewrite IH by done. by rewrite append_assoc.
Qed.

Lemma split_go_skip sep x cur rest :
  Str.split_go sep (String.length x) cur (x +:+ rest) = Str.split_go sep 0 cur rest.
Proof.
  induction x as [|c x IH]; [done|].
  change (String c x +:+ rest) with (String c (x +:+ rest)).
  cbn [String.length Str.split_go]. apply IH.
Qed.

(** The first separator after a piece that is free of its first character
    ends that piece. *)
Lemma split_go_piece c0 sep' a cur rest :
  Str.contains (String c0 EmptyString) a = false ->
  Str.split_go (String c0 sep') 0 cur (a +:+ (String c0 sep' +:+ rest))
  = (cur +:+ a) :: Str.split (String c0 sep') rest.
Proof.
  intros Hfree. rewrite split_go_free by done.
  change (String c0 sep' +:+ rest) with (String c0 (sep' +:+ rest)).
  cbn [Str.split_go].
  change (String c0 (sep' +:+ rest)) with (String c0 sep' +:+ rest).
  rewrite startswith_app.
  change (String.length (String c0 sep') - 1) with (String.length sep' - 0).
  rewrite Nat.sub_0_r, split_go_skip. done.
Qed.

Lemma split_go_last c0 sep' a cur :
  Str.contains (String c0 EmptyString) a = false ->
  Str.split_go (String c0 sep') 0 cur a = [cur +:+ a].
Proof.
  intros Hfree. rewrite <- (append_nil_r a) at 1. by rewrite split_go_free.
Qed.

End Splitting.

Section JsonPortion.
Context `{Env}.

Lemma startswith_prefix p q s :
  Str.startswith (p +:+ q) s = true -> Str.startswith p s = true.
Proof.
  revert s. induction p as [|a p IH]; intros s; [done|].
  change (String a p +:+ q) with (String a (p +:+ q)).
  destruct s as [|b s]; simpl; [done|]. destruct (decide (a = b)); [apply IH|done].
Qed.

Lemma contains_prefix p q s :
  Str.contains (p +:+ q) s = true -> Str.contains p s = true.
Proof.
  induction s as [|c s IH]; cbn [Str.contains]; intros Hc.
  - apply orb_true_iff in Hc as [Hc|Hc]; [|done].
    by rewrite (startswith_prefix p q).
  - apply orb_true_iff in Hc as [Hc|Hc].
    + by rewrite (startswith_prefix p q).
    + rewrite IH by done. apply orb_true_r.
Qed.

Lemma startswith_cons a p s :
  Str.startswith (String a p) (String a s) = Str.startswith p s.
Proof. simpl. by rewrite decide_True. Qed.

Lemma startswith_backtick_free sep' s :
  Str.contains "`" s = false -> Str.startswith (String "`" sep') s = false.
Proof.
  destruct s as [|c s]; [done|]. intros [Hc _]%contains_char_cons.
  simpl. by rewrite decide_False.
Qed.

(** X7. Taking the JSON portion of a reply never raises: where a fence is
    found, the split at it has a second piece, and every split has a first
    one.  A reply without three backticks in a row is its own JSON
    portion. *)
Theorem json_portion_never_raises content :
  (exists json_str, json_portion content = Ok json_str)
  /\ (Str.contains "```" content = false -> json_portion content = Ok content).
Proof.
  split.
  - unfold json_portion.
    destruct (Str.contains "```json" content) eqn:Hj.
    + destruct (split_index_1 "```json" content) as [after ->]; [done|done|].
      destruct (split_index_0 "```" after) as [inside Hin].
      simpl. rewrite Hin. simpl. by eexists.
    + destruct (Str.contains "```" content) eqn:Hf; [|by eexists].
      destruct (split_index_1 "```" content) as [after ->]; [done|done|].
      destruct (split_index_0 "```" after) as [inside Hin].
      simpl. rewrite Hin. simpl. by eexists.
  - intros Hf. unfold json_portion. rewrite Hf.
    destruct (Str.contains "```json" content) eqn:Hj; [|done].
    apply (contains_prefix "```" "json") in Hj. congruence.
Qed.

(** X8. A reply that holds one block fenced by three backticks and the
    word json, with no other backtick before, inside or after the block,
    has the inside of the block, stripped, as its JSON portion. *)
Theorem json_portion_reads_the_fence pre body post :
  Str.contains "`" pre = false ->
  Str.contains "`" body = false ->
  Str.contains "`" post = false ->
  json_portion (pre +:+ "```json" +:+ body +:+ "```" +:+ post) = Ok (Str.strip body).
Proof.
  intros Hpre Hbody Hpost. unfold json_portion.
  rewrite contains_app.
  unfold Str.split at 1. rewrite (split_go_piece "`" "``json" pre) by done.
  change (py_index (?a :: ?l) 1) with (py_index l 0).
  unfold Str.split at 1. rewrite (split_go_free "`" "``json" body) by done.
  change (EmptyString +:+ body) with body.
  change ("```" +:+ post) with (String "`" (String "`" (String "`" post))).
  cbn [Str.split_go].
  destruct (Str.startswith "```json" (String "`" (String "`" (String "`" post)))) eqn:H0.
  - unfold py_index at 1. cbn [lookup list_lookup rbind].
    unfold Str.split. rewrite (split_go_last "`" "``") by done.
    done.
  - assert (Str.startswith "```json" (String "`" (String "`" post)) = false) as ->.
    { rewrite !startswith_cons. by apply startswith_backtick_free. }
    assert (Str.startswith "```json" (String "`" post) = false) as ->.
    { rewrite !startswith_cons. by apply startswith_backtick_free. }
    rewrite (split_go_last "`" "``json") by done.
    unfold py_index at 1. cbn [lookup list_lookup rbind].
    rewrite !append_assoc.
    change ("`" +:+ "`" +:+ "`" +:+ post) with ("```" +:+ post).
    unfold Str.split. rewrite (split_go_piece "`" "``" body) by done.
    done.
Qed.

End JsonPortion.

(** A reply with a sentence before its fenced block. *)
Lemma json_portion_reads_the_fence_witness :
  json_portion ("Here are the queries:" +:+ "```json" +:+ " {} " +:+ "```" +:+ " Done.")
  = Ok "{}".
Proof.
  apply (json_portion_reads_the_fence "Here are the queries:" " {} " " Done."); reflexivity.
Defined.

(** ** The extraction of queries, outside the decoded-object case *)

Section ExtractionPaths.
Context `{Env}.

(** X9. Generating the search queries calls the model exactly once and
    raises exactly when that call raises, with the message of the call:
    whatever goes wrong in reading the reply is absorbed by the fallback. *)
Theorem extraction_raises_with_the_model_only llm sp question an (s : Sys) :
  let messages := query_messages sp question an in
  let out := generate_search_queries llm sp question an s in
  trace out.1 = trace s ++ [EvModel llm messages]
  /\ world out.1 = (chat_invoke llm messages (world s)).1
  /\ (forall e, out.2 = Raise e <-> (chat_invoke llm messages (world s)).2 = Raise e)
  /\ (forall content,
         (chat_invoke llm messages (world s)).2 = Ok content ->
         exists queries, out.2 = Ok queries).
Proof.
  intros messages out. subst out.
  unfold generate_search_queries, bind, call, try_except, lift, ret. fold messages.
  destruct (chat_invoke llm messages (world s)) as [w [content|e]]; simpl.
  - destruct (parse_queries content); simpl;
      (split_and!; [done|done| |by eexists]); intros e; split; discriminate.
  - split_and!; [done|done| |discriminate]. intros e'; split; by intros [= ->].
Qed.

(** X10. When the JSON portion of the reply does not decode to an object,
    be it that the decoding raises or that it gives a list, a text, a
    number or null, the queries returned are those of the fallback: the
    first five quoted lines of the reply. *)
Theorem fallback_is_taken_on_non_objects llm sp question an (s : Sys) w1 content json_str :
  chat_invoke llm (query_messages sp question an) (world s) = (w1, Ok content) ->
  json_portion content = Ok json_str ->
  (forall d, json_loads json_str <> Ok (PDict d)) ->
  generate_search_queries llm sp question an s
  = ({| world := w1;
        trace := trace s ++ [EvModel llm (query_messages sp question an)] |},
     Ok (PList (PStr <$> take 5 (unquote_line
                                   <$> List.filter quoted_line
                                         (Str.split Str.newline content))))).
Proof.
  intros Hcall Hportion Hloads.
  rewrite (generate_search_queries_run _ _ _ _ _ _ _ Hcall).
  rewrite <- fallback_queries_eq.
  unfold parse_queries. rewrite Hportion. simpl.
  destruct (json_loads json_str) as [v|e]; simpl; [|done].
  destruct v; simpl; try done. by destruct (Hloads d).
Qed.

(** X11. The fallback returns the quoted lines of the reply, in their
    order, each stripped as the code strips it, and stops at five:
    every query it returns comes from a line that starts with a quote. *)
Theorem fallback_keeps_first_five_quoted_lines content :
  fallback_queries content
  = take 5 (unquote_line <$> List.filter quoted_line (Str.split Str.newline content))
  /\ length (fallback_queries content) <= 5
  /\ Forall (fun q => exists line,
                 line ∈ Str.split Str.newline content
                 /\ quoted_line line = true /\ q = unquote_line line)
       (fallback_queries content).
Proof.
  split; [apply fallback_queries_eq|]. split; [apply fallback_queries_length|].
  rewrite fallback_queries_eq. apply Forall_take, Forall_fmap, Forall_forall.
  intros line Hin. apply list_elem_of_In, filter_In in Hin as [Hin Hq].
  exists line. by rewrite list_elem_of_In.
Qed.

End ExtractionPaths.

(** A reply that is a bare JSON list of two queries decodes, is not an
    object, and leaves the expert without queries: its one line starts with
    a bracket. *)
Lemma fallback_is_taken_on_non_objects_witness :
  let E := Demo.env Demo.bare_list in
  @json_loads E Demo.bare_list_reply = Ok (PList [PStr "q1"; PStr "q2"])
  /\ @generate_search_queries E Demo.llm0 "P" (PStr "Q") "market_analyst"
                              (Demo.sys0 Demo.bare_list)
     = (@Build_Sys E tt [EvModel Demo.llm0 (@query_messages E "P" (PStr "Q") "market_analyst")],
        Ok (PList [])).
Proof.
  intros E. split; [by_vm|].
  rewrite (fallback_is_taken_on_non_objects (H := E) Demo.llm0 "P" (PStr "Q")
             "market_analyst" (Demo.sys0 Demo.bare_list) tt
             Demo.bare_list_reply Demo.bare_list_reply).
  - by_vm.
  - reflexivity.
  - by_vm.
  - intros d Hd. vm_compute in Hd. discriminate.
Defined.

(** ** The summarizer and the final synthesis on their edges *)

Section Summaries.
Context `{Env}.

(** X12. When the question field is absent or empty and none of the copies
    question_1 to question_5 holds a non-empty value, the final synthesis
    asks about the text No question provided. *)
Theorem select_question_default state :
  truthy (state_get state "question" (PStr EmptyString)) = false ->
  (forall i v, 1 <= i <= 5 ->
               Dict.get state ("question_" +:+ pretty i) = Some v -> truthy v = false) ->
  select_question state = PStr "No question provided".
Proof.
  intros Hq Hcopies. unfold select_question. rewrite Hq.
  rewrite first_question_copy_none.
  - simpl. by rewrite Hq.
  - intros j u Hj. apply Hcopies. apply elem_of_seq in Hj. lia.
Qed.

(** X13. The file of a group summary is named after the part of the display
    name in front of its first opening parenthesis, stripped; a display name
    without a parenthesis names the file as it is.  Cleaning the name never
    raises. *)
Theorem clean_group_name_drops_the_suffix head suffix :
  Str.contains "(" head = false ->
  clean_group_name (head +:+ "(" +:+ suffix) = Ok (Str.strip head)
  /\ clean_group_name head = Ok head
  /\ forall name, exists clean, clean_group_name name = Ok clean.
Proof.
  intros Hfree. split_and!.
  - unfold clean_group_name. rewrite contains_app.
    unfold Str.split. by rewrite (split_go_piece "(" EmptyString head).
  - unfold clean_group_name. by rewrite Hfree.
  - intros name. unfold clean_group_name. destruct (Str.contains "(" name); [|by eexists].
    destruct (split_index_0 "(" name) as [piece ->]. simpl. by eexists.
Qed.

Lemma format_all_search_info_absent state names info :
  Dict.get state "search_results" = None ->
  format_all_search_info state names info = Ok info.
Proof.
  intros Habsent. induction names as [|name names IH]; [done|].
  cbn [format_all_search_info]. unfold format_search_info, state_get.
  rewrite Habsent. simpl. apply IH.
Qed.

(** X14. A summarizer run on a state that has neither its group key nor
    search results does not fail on that: it asks the model once, with a
    prompt whose analyses and search sections are empty, about the question
    under its question key, or about No question provided when that key is
    absent too. *)
Theorem summarizer_tolerates_missing_inputs gn names gk qk state (s : Sys) llm :
  Dict.get state gk = None ->
  Dict.get state "search_results" = None ->
  get_model s = (s, Ok llm) ->
  format_expert_analyses gk state = Ok EmptyString
  /\ format_all_search_info state names EmptyString = Ok EmptyString
  /\ exists s' upd rest,
       summarize_group gn names gk qk state s = (s', Ok upd)
       /\ trace s'
          = trace s
            ++ EvModel llm
                 [ SystemMessage "You are a financial analysis coordinator.";
                   HumanMessage
                     (summary_prompt gn
                        (from_option id (PStr "No question provided") (Dict.get state qk))
                        EmptyString EmptyString) ]
               :: rest.
Proof.
  intros Hgk Hsr Hm.
  assert (format_expert_analyses gk state = Ok EmptyString) as Ha.
  { unfold format_expert_analyses, Dict.mem. by rewrite Hgk. }
  pose proof (format_all_search_info_absent state names EmptyString Hsr) as Hi.
  split; [done|]. split; [done|].
  unfold summarize_group, summarize_group_body, try_except.
  unfold bind at 1. unfold lift at 1. rewrite Ha.
  unfold bind at 1. unfold lift at 1. rewrite Hi.
  unfold bind at 1. rewrite Hm. unfold state_get.
  unfold bind, call, lift, ret.
  destruct (chat_invoke _ _ _) as [w1 [summary|e]]; simpl.
  2:{ by eexists _, _, []. }
  destruct (fs_mkdir _ _) as [w2 [[]|e]]; simpl.
  2:{ eexists _, _, [_]. by rewrite <- app_assoc. }
  destruct (clean_group_name gn) as [clean|e]; simpl.
  2:{ eexists _, _, [_]. by rewrite <- app_assoc. }
  destruct (fs_write _ _ _) as [w3 [[]|e]]; simpl;
    eexists _, _, [_; _]; by rewrite <- !app_assoc.
Qed.

(** X15. A summary that the model has returned is lost when writing its
    file fails: the summarizer returns the text Error in summary: [e] in
    its place, after the one call of the model.  When the write returns, the
    entry holds the summary. *)
Theorem summary_is_lost_when_saving_fails gn names gk qk state (s : Sys) llm
  analyses info summary clean w1 w2 w3 (saved : result unit) :
  let question := state_get state qk (PStr "No question provided") in
  let messages :=
    [ SystemMessage "You are a financial analysis coordinator.";
      HumanMessage (summary_prompt gn question analyses info) ] in
  let output_dir :=
    path_join (path_join module_dir "investment_strategies") "group_responses" in
  let path := path_join output_dir (clean +:+ ".txt") in
  let text :=
    Str.cat [ "=== GROUP SUMMARY: "; str_upper clean; " ==="; Str.newline; Str.newline;
              "Question: "; py_str question; Str.newline; Str.newline;
              summary ] in
  format_expert_analyses gk state = Ok analyses ->
  format_all_search_info state names EmptyString = Ok info ->
  get_model s = (s, Ok llm) ->
  chat_invoke llm messages (world s) = (w1, Ok summary) ->
  fs_mkdir output_dir w1 = (w2, Ok tt) ->
  clean_group_name gn = Ok clean ->
  fs_write path text w2 = (w3, saved) ->
  summarize_group gn names gk qk state s
  = ({| world := w3;
        trace := trace s ++ [EvModel llm messages; EvMkdir output_dir; EvWrite path text] |},
     Ok match saved with
        | Ok _ => [("group_summaries", PDict [(gn, PStr summary)])]
        | Raise e => [("group_summaries", PDict [(gn, PStr ("Error in summary: " +:+ e))])]
        end).
Proof.
  intros question messages output_dir path text Ha Hi Hm Hcall Hmk Hclean Hwr.
  unfold summarize_group, summarize_group_body, try_except.
  unfold bind at 1. unfold lift at 1. rewrite Ha.
  unfold bind at 1. unfold lift at 1. rewrite Hi.
  unfold bind at 1. rewrite Hm.
  fold question. fold messages.
  unfold bind, call, lift, ret. rewrite Hcall. cbn [world trace].
  fold output_dir. rewrite Hmk. cbn [world trace]. rewrite Hclean.
  fold path. fold text. rewrite Hwr. cbn [world trace]. rewrite <- !app_assoc.
  by destruct saved as [[]|e].
Qed.

(** X16. A final report that the model has returned is lost when writing
    its file fails after the directory was created: the final synthesis
    returns the text Error in final synthesis: [e] in its place. *)
Theorem report_is_lost_when_saving_fails state (s : Sys) llm summaries report w1 w2 w3 e :
  let messages := synthesis_messages (select_question state) summaries in
  let path := path_join final_report_dir "final_investment_strategy.txt" in
  let text := final_report_text (select_question state) report in
  format_group_summaries state = Ok summaries ->
  get_model s = (s, Ok llm) ->
  chat_invoke llm messages (world s) = (w1, Ok report) ->
  fs_mkdir final_report_dir w1 = (w2, Ok tt) ->
  fs_write path text w2 = (w3, Raise e) ->
  final_synthesizer state s
  = ({| world := w3;
        trace := trace s ++ [EvModel llm messages; EvMkdir final_report_dir;
                             EvWrite path text] |},
     Ok [("final_report", PStr ("Error in final synthesis: " +:+ e))]).
Proof.
  intros messages path text Hsum Hm Hcall Hmk Hwr.
  unfold final_synthesizer, final_synthesizer_body, try_except.
  unfold bind at 1. unfold lift at 1. rewrite Hsum.
  unfold bind at 1. rewrite Hm. fold messages.
  unfold bind, call, lift, ret. rewrite Hcall. cbn [world trace]. rewrite Hmk.
  cbn [world trace]. fold path. fold text. rewrite Hwr. cbn [world trace].
  by rewrite <- !app_assoc.
Qed.

End Summaries.

(** A state whose question is empty and whose first copy is None. *)
Lemma select_question_default_witness :
  select_question [("question", PStr EmptyString); ("question_1", PNone)]
  = PStr "No question provided".
Proof.
  apply select_question_default; [reflexivity|].
  intros i v Hi Hget.
  assert (i = 1 \/ i = 2 \/ i = 3 \/ i = 4 \/ i = 5) as Hcases by lia.
  destruct Hcases as [-> | [-> | [-> | [-> | ->]]]]; vm_compute in Hget;
    try discriminate. inversion Hget. reflexivity.
Defined.

(** The summary of the first group goes to a file named by the Vietnamese
    part of its display name. *)
Lemma clean_group_name_drops_the_suffix_witness :
  clean_group_name market_analysis_name = Ok "Phân tích Thị trường".
Proof.
  destruct (clean_group_name_drops_the_suffix "Phân tích Thị trường " "Market Analysis)")
    as [Hclean _]; [reflexivity|exact Hclean].
Defined.

(** The strategy summarizer on the empty state. *)
Lemma summarizer_tolerates_missing_inputs_witness :
  let E := Demo.env Demo.nominal in
  exists s' upd rest,
    @summarize_group E strategy_name ["game_theory_strategist"] "group_5" "question_5" []
                     (Demo.sys0 Demo.nominal)
    = (s', Ok upd)
    /\ trace s'
       = EvModel Demo.llm0
           [ SystemMessage "You are a financial analysis coordinator.";
             HumanMessage
               (@summary_prompt E strategy_name (PStr "No question provided")
                                EmptyString EmptyString) ]
         :: rest.
Proof.
  intros E.
  destruct (summarizer_tolerates_missing_inputs (H := E) strategy_name
              ["game_theory_strategist"] "group_5" "question_5" []
              (Demo.sys0 Demo.nominal) Demo.llm0 eq_refl eq_refl eq_refl)
    as (_ & _ & Hrun).
  exact Hrun.
Defined.

(** The strategy summarizer on a full disk. *)
Lemma summary_is_lost_when_saving_fails_witness :
  let E := Demo.env Demo.disk_full in
  (@summarize_group E strategy_name [] "group_5" "question_5" []
                    (Demo.sys0 Demo.disk_full)).2
  = Ok [("group_summaries",
         PDict [(strategy_name,
                 PStr "Error in summary: [Errno 28] No space left on device")])].
Proof.
  intros E.
  rewrite (summary_is_lost_when_saving_fails (H := E) strategy_name [] "group_5"
             "question_5" [] (Demo.sys0 Demo.disk_full) Demo.llm0
             EmptyString EmptyString "ANALYSIS" "Lập chiến lược" tt tt tt
             (Raise "[Errno 28] No space left on device"));
    reflexivity.
Defined.

(** The final synthesis on a full disk. *)
Lemma report_is_lost_when_saving_fails_witness :
  let E := Demo.env Demo.disk_full in
  (@final_synthesizer E Demo.asked (Demo.sys0 Demo.disk_full)).2
  = Ok [("final_report",
         PStr "Error in final synthesis: [Errno 28] No space left on device")].
Proof.
  intros E.
  rewrite (report_is_lost_when_saving_fails (H := E) Demo.asked
             (Demo.sys0 Demo.disk_full) Demo.llm0 EmptyString "ANALYSIS" tt tt tt
             "[Errno 28] No space left on device");
    reflexivity.
Defined.

(** ** The main graph: what a run returns and in which order *)

Section MainGraph.
Context `{Env}.

(** X17. With the graph engine as the specification describes it, the run
    of the main graph on a question returns for every behaviour of the
    model, the search and the disk, and the state it returns has the five
    copies of the question, the fields group_1 to group_5, each a mapping
    whose keys are the five expert names of that group in their order,
    twenty-five search entries, the five group summaries and the final
    report; the question field and the analyses field are not part of it. *)
Theorem main_run_returns_every_field question (s : Sys) :
  exists s' out report,
    main_graph [("question", PStr question)] s = (s', Ok out)
    /\ Dict.keys out
       = [ "question_1"; "question_2"; "question_3"; "question_4"; "question_5";
           "group_1"; "search_results"; "group_summaries";
           "group_2"; "group_3"; "group_4"; "group_5"; "final_report" ]
    /\ field_keys out "group_1" = snd <$> market_experts
    /\ field_keys out "group_2" = snd <$> financial_experts
    /\ field_keys out "group_3" = snd <$> sectoral_experts
    /\ field_keys out "group_4" = snd <$> external_experts
    /\ field_keys out "group_5" = snd <$> strategy_experts
    /\ field_keys out "search_results"
       = (fun name => name +:+ "_search")
           <$> (snd <$> market_experts ++ financial_experts ++ sectoral_experts
                        ++ external_experts ++ strategy_experts)
    /\ field_keys out "group_summaries"
       = [ market_analysis_name; financial_analysis_name; sectoral_analysis_name;
           external_factors_name; strategy_name ]
    /\ Dict.get out "final_report" = Some (PStr report)
    /\ Dict.get out "question" = None
    /\ Dict.get out "analyses" = None
    /\ Forall (fun k => Dict.get out k = Some (PStr question))
         ["question_1"; "question_2"; "question_3"; "question_4"; "question_5"]
    /\ NoDup (snd <$> market_experts ++ financial_experts ++ sectoral_experts
                      ++ external_experts ++ strategy_experts).
Proof.
  destruct (main_graph_run question s)
    as (s' & o1 & o2 & o3 & o4 & o5 & report & i1 & i2 & i3 & i4 & i5 & i6
        & (H1 & H2 & H3 & H4 & H5) & Hrun & _).
  exists s', (main_output question o1 o2 o3 o4 o5 report), report.
  split; [exact Hrun|].
  pose proof (main_output_fields question o1 o2 o3 o4 o5 report H1 H2 H3 H4 H5) as Hf.
  cbv zeta in Hf.
  destruct Hf as (F1 & F2 & F3 & F4 & F5 & F6 & F7 & F8 & F9 & F10 & F11 & F12).
  split_and!; try assumption.
  apply (bool_decide_eq_true_1 (NoDup _)). by_vm.
Qed.

(** The fields of the snapshots the nodes of the main graph read. *)
Lemma snapshot_fields question o1 o2 o3 o4 o5 :
  length (analyses o1) = 5 -> length (analyses o2) = 5 -> length (analyses o3) = 5 ->
  length (analyses o4) = 5 -> length (analyses o5) = 5 ->
  (Forall (fun k => Dict.get (after_initializer question) k = Some (PStr question))
     ["question_1"; "question_2"; "question_3"; "question_4"; "question_5"]
   /\ field_keys (after_initializer question) "group_summaries" = [])
  /\ (field_keys (after_groups question o1 o2 o3 o4) "group_summaries"
      = [ market_analysis_name; financial_analysis_name; sectoral_analysis_name;
          external_factors_name ]
      /\ field_keys (after_groups question o1 o2 o3 o4) "group_1" = snd <$> market_experts
      /\ field_keys (after_groups question o1 o2 o3 o4) "group_2" = snd <$> financial_experts
      /\ field_keys (after_groups question o1 o2 o3 o4) "group_3" = snd <$> sectoral_experts
      /\ field_keys (after_groups question o1 o2 o3 o4) "group_4" = snd <$> external_experts
      /\ field_keys (after_groups question o1 o2 o3 o4) "group_5" = [])
  /\ (field_keys (after_strategy question o1 o2 o3 o4 o5) "group_summaries"
      = [ market_analysis_name; financial_analysis_name; sectoral_analysis_name;
          external_factors_name; strategy_name ]
      /\ field_keys (after_strategy question o1 o2 o3 o4 o5) "group_5"
         = snd <$> strategy_experts
      /\ Dict.get (after_strategy question o1 o2 o3 o4 o5) "final_report" = None).
Proof.
  intros (? & ? & ? & ? & ? & ? & ? & ? & ? & ? & ? & ->)%five_analyses
         (? & ? & ? & ? & ? & ? & ? & ? & ? & ? & ? & ->)%five_analyses
         (? & ? & ? & ? & ? & ? & ? & ? & ? & ? & ? & ->)%five_analyses
         (? & ? & ? & ? & ? & ? & ? & ? & ? & ? & ? & ->)%five_analyses
         (? & ? & ? & ? & ? & ? & ? & ? & ? & ? & ? & ->)%five_analyses.
  split_and!; try by_vm.
  repeat constructor; by_vm.
Qed.

(** X18. With the graph engine as the specification describes it, the
    nodes of the main graph run in this order on every question: the
    initializer, the four analysis groups, each on the state the initializer
    left, with the five copies of the question and no summary yet; then the
    join, which calls no collaborator and leaves the state as it is; then
    the strategy group on the same state as the join, which holds the four
    summaries and the analyses of the four groups and nothing of the fifth;
    then the final synthesis on a state with the five summaries. *)
Theorem main_run_order question (s : Sys) :
  exists s' out snap1 snap2 snap3 i1 i2 i3 i4 i5 i6,
    main_graph [("question", PStr question)] s = (s', Ok out)
    /\ trace s'
       = trace s
         ++ [ EvNode "initializer" [("question", PStr question)] [];
              EvNode "market_analysis_group" snap1 i1;
              EvNode "financial_analysis_group" snap1 i2;
              EvNode "sectoral_analysis_group" snap1 i3;
              EvNode "external_factors_group" snap1 i4;
              EvNode "join" snap2 [];
              EvNode "strategy_group" snap2 i5;
              EvNode "final_synthesis" snap3 i6 ]
    /\ Forall (fun k => Dict.get snap1 k = Some (PStr question))
         ["question_1"; "question_2"; "question_3"; "question_4"; "question_5"]
    /\ field_keys snap1 "group_summaries" = []
    /\ field_keys snap2 "group_summaries"
       = [ market_analysis_name; financial_analysis_name; sectoral_analysis_name;
           external_factors_name ]
    /\ field_keys snap2 "group_1" = snd <$> market_experts
    /\ field_keys snap2 "group_2" = snd <$> financial_experts
    /\ field_keys snap2 "group_3" = snd <$> sectoral_experts
    /\ field_keys snap2 "group_4" = snd <$> external_experts
    /\ field_keys snap2 "group_5" = []
    /\ field_keys snap3 "group_summaries"
       = [ market_analysis_name; financial_analysis_name; sectoral_analysis_name;
           external_factors_name; strategy_name ]
    /\ field_keys snap3 "group_5" = snd <$> strategy_experts
    /\ Dict.get snap3 "final_report" = None.
Proof.
  destruct (main_graph_run question s)
    as (s' & o1 & o2 & o3 & o4 & o5 & report & i1 & i2 & i3 & i4 & i5 & i6
        & (H1 & H2 & H3 & H4 & H5) & Hrun & Htrace).
  exists s', (main_output question o1 o2 o3 o4 o5 report),
    (after_initializer question), (after_groups question o1 o2 o3 o4),
    (after_strategy question o1 o2 o3 o4 o5), i1, i2, i3, i4, i5, i6.
  split; [exact Hrun|]. split; [exact Htrace|].
  destruct (snapshot_fields question o1 o2 o3 o4 o5 H1 H2 H3 H4 H5)
    as ((A1 & A2) & (B1 & B2 & B3 & B4 & B5 & B6) & (C1 & C2 & C3)).
  split_and!; assumption.
Qed.

Lemma main_predecessors :
  predecessors main_workflow "initializer" = [START]
  /\ predecessors main_workflow "market_analysis_group" = ["initializer"]
  /\ predecessors main_workflow "financial_analysis_group" = ["initializer"]
  /\ predecessors main_workflow "sectoral_analysis_group" = ["initializer"]
  /\ predecessors main_workflow "external_factors_group" = ["initializer"]
  /\ predecessors main_workflow "join"
     = [ "market_analysis_group"; "financial_analysis_group";
         "sectoral_analysis_group"; "external_factors_group" ]
  /\ predecessors main_workflow "strategy_group" = ["join"]
  /\ predecessors main_workflow "final_synthesis" = ["strategy_group"].
Proof. split_and!; reflexivity. Qed.

Lemma is_ready_preds g finished name preds :
  predecessors g name = preds -> preds <> [] -> START ∉ preds ->
  is_ready g finished name = true <-> (name ∉ finished) /\ Forall (.∈ finished) preds.
Proof.
  intros Hp Hne Hstart. unfold is_ready. cbv zeta. rewrite Hp.
  rewrite !andb_true_iff, !negb_true_iff, !bool_decide_eq_false.
  rewrite forallb_forall, Forall_forall.
  split.
  - intros [[Hn _] Hall]. split; [done|]. intros p Hin.
    specialize (Hall p (proj1 (list_elem_of_In _ _) Hin)).
    apply orb_true_iff in Hall as [Hs|Hf].
    + apply bool_decide_eq_true in Hs. by subst.
    + by apply bool_decide_eq_true in Hf.
  - intros [Hn Hall]. split_and!; [done|done|]. intros p Hin.
    apply orb_true_iff. right. apply bool_decide_eq_true, Hall.
    by apply list_elem_of_In.
Qed.

(** X19. Whatever set of nodes has finished, the readiness test of the
    engine, as the specification describes it, finds the join
    ready exactly when the four analysis groups have all finished and the
    join has not run, the strategy group exactly when the join has finished,
    the final synthesis exactly when the strategy group has, and each
    analysis group exactly when the initializer has: no schedule starts the
    strategy group before the join, or the join before any of the four
    groups. *)
Theorem join_waits_for_the_four_groups (finished : list string) :
  (is_ready main_workflow finished "join" = true
   <-> ("join" ∉ finished)
       /\ "market_analysis_group" ∈ finished /\ "financial_analysis_group" ∈ finished
       /\ "sectoral_analysis_group" ∈ finished /\ "external_factors_group" ∈ finished)
  /\ (is_ready main_workflow finished "strategy_group" = true
      <-> ("strategy_group" ∉ finished) /\ "join" ∈ finished)
  /\ (is_ready main_workflow finished "final_synthesis" = true
      <-> ("final_synthesis" ∉ finished) /\ "strategy_group" ∈ finished)
  /\ (forall group,
         group ∈ [ "market_analysis_group"; "financial_analysis_group";
                   "sectoral_analysis_group"; "external_factors_group" ] ->
         is_ready main_workflow finished group = true
         <-> (group ∉ finished) /\ "initializer" ∈ finished)
  /\ (is_ready main_workflow finished "initializer" = true
      <-> ("initializer" ∉ finished)).
Proof.
  destruct main_predecessors as (P0 & P1 & P2 & P3 & P4 & P5 & P6 & P7).
  split_and!.
  - rewrite (is_ready_preds _ _ _ _ P5); [|done|apply (proj1 (bool_decide_eq_false _)); reflexivity].
    rewrite !Forall_cons, Forall_nil. tauto.
  - rewrite (is_ready_preds _ _ _ _ P6); [|done|apply (proj1 (bool_decide_eq_false _)); reflexivity].
    rewrite !Forall_cons, Forall_nil. tauto.
  - rewrite (is_ready_preds _ _ _ _ P7); [|done|apply (proj1 (bool_decide_eq_false _)); reflexivity].
    rewrite !Forall_cons, Forall_nil. tauto.
  - intros group Hg.
    assert (predecessors main_workflow group = ["initializer"]) as Hp.
    { repeat (apply elem_of_cons in Hg as [-> | Hg]; [assumption|]).
      by apply elem_of_nil in Hg. }
    rewrite (is_ready_preds _ _ _ _ Hp); [|done|apply (proj1 (bool_decide_eq_false _)); reflexivity].
    rewrite !Forall_cons, Forall_nil. tauto.
  - unfold is_ready. cbv zeta. rewrite P0.
    rewrite !andb_true_iff, !negb_true_iff, !bool_decide_eq_false.
    split; [tauto|]. intros Hn. split_and!; [done|done|reflexivity].
Qed.

End MainGraph.

(** ** The calls an expert task makes *)

Section ExpertCalls.
Context `{Env}.







End ExpertCalls.

(** ** What the summarizer and the final synthesis read *)

Section Reads.
Context `{Env}.

Lemma first_question_copy_ext st1 st2 range :
  (forall i, i ∈ range ->
             Dict.get st1 ("question_" +:+ pretty i) = Dict.get st2 ("question_" +:+ pretty i)) ->
  first_question_copy st1 range = first_question_copy st2 range.
Proof.
  induction range as [|i range IH]; intros Hsame; [done|].
  cbn [first_question_copy]. rewrite (Hsame i) by by left.
  rewrite IH; [done|]. intros j Hj. apply Hsame. by right.
Qed.

Lemma format_all_search_info_ext st1 st2 names info :
  Dict.get st1 "search_results" = Dict.get st2 "search_results" ->
  format_all_search_info st1 names info = format_all_search_info st2 names info.
Proof.
  intros Hsame. revert info. induction names as [|name names IH]; intros info; [done|].
  cbn [format_all_search_info].
  assert (format_search_info st1 info name = format_search_info st2 info name) as ->.
  { unfold format_search_info, state_get, py_getitem. by rewrite Hsame. }
  destruct (format_search_info st2 info name); simpl; [apply IH|done].
Qed.

(** X21. A group summarizer reads three fields of the state and no other:
    the analyses under its group key, the search results, and its copy of
    the question.  Two states that agree on these three give the same run. *)
Theorem summarizer_reads_three_fields gn names gk qk st1 st2 :
  Dict.get st1 gk = Dict.get st2 gk ->
  Dict.get st1 "search_results" = Dict.get st2 "search_results" ->
  Dict.get st1 qk = Dict.get st2 qk ->
  summarize_group gn names gk qk st1 = summarize_group gn names gk qk st2.
Proof.
  intros Hg Hs Hq. unfold summarize_group, summarize_group_body.
  assert (format_expert_analyses gk st1 = format_expert_analyses gk st2) as ->.
  { unfold format_expert_analyses, Dict.mem, py_getitem. by rewrite Hg. }
  rewrite (format_all_search_info_ext st1 st2 names EmptyString Hs).
  unfold state_get. by rewrite Hq.
Qed.

(** X22. The final synthesis reads the question, its five copies and the
    group summaries, and no other field: the analyses of the experts and
    the search results reach the final report through the summaries only. *)
Theorem final_synthesis_reads_summaries_only st1 st2 :
  Dict.get st1 "question" = Dict.get st2 "question" ->
  (forall i, 1 <= i <= 5 ->
             Dict.get st1 ("question_" +:+ pretty i) = Dict.get st2 ("question_" +:+ pretty i)) ->
  Dict.get st1 "group_summaries" = Dict.get st2 "group_summaries" ->
  final_synthesizer st1 = final_synthesizer st2.
Proof.
  intros Hq Hcopies Hs. unfold final_synthesizer, final_synthesizer_body.
  assert (format_group_summaries st1 = format_group_summaries st2) as ->.
  { unfold format_group_summaries, state_get. by rewrite Hs. }
  assert (select_question st1 = select_question st2) as ->; [|done].
  unfold select_question, state_get. rewrite Hq.
  rewrite (first_question_copy_ext st1 st2 (seq 1 5)); [done|].
  intros i Hi. apply Hcopies. apply elem_of_seq in Hi. lia.
Qed.

(** X23. The search section of a summary prompt lists the queries of the
    experts whose search entry has a queries key, one line per query under
    a heading that names the expert; an expert whose entry has no such key,
    as the entry of a failed task, which holds the error alone, adds nothing
    to the section. *)
Theorem search_section_skips_failed_experts state sr entry info expert :
  Dict.get state "search_results" = Some (PDict sr) ->
  Dict.get sr (expert +:+ "_search") = Some (PDict entry) ->
  (Dict.get entry "queries" = None -> format_search_info state info expert = Ok info)
  /\ (forall qs, Dict.get entry "queries" = Some (PList qs) ->
                 format_search_info state info expert
                 = Ok (fold_left
                         (fun search_info query =>
                            search_info +:+ Str.cat ["- "; py_str query; Str.newline])
                         qs
                         (info +:+ Str.cat [Str.newline; "### Search queries from ";
                                            expert; ":"; Str.newline])))
  /\ (forall e, format_search_info state info expert = Raise e ->
                exists v, Dict.get entry "queries" = Some v /\ py_iter v = Raise e).
Proof.
  intros Hsr Hentry. unfold format_search_info, state_get, py_getitem, py_in, Dict.mem.
  rewrite Hsr. cbv zeta. cbn [from_option id rbind]. rewrite Hentry. cbn [rbind].
  destruct (Dict.get entry "queries") as [v|]; cbn [rbind].
  - split_and!; [done| |].
    + by intros qs [= ->].
    + intros e He. exists v. split; [done|]. revert He.
      destruct (py_iter v) as [qs|e']; cbn [rbind]; [discriminate|by intros [= ->]].
  - split_and!; [done|done|done].
Qed.

End Reads.

(** The strategy summarizer does not see the analyses of the first group. *)
Lemma summarizer_reads_three_fields_witness :
  let E := Demo.env Demo.nominal in
  @summarize_group E strategy_name [] "group_5" "question_5"
    [("question_5", Demo.question0)]
  = @summarize_group E strategy_name [] "group_5" "question_5"
      [("question_5", Demo.question0);
       ("group_1", PDict [("market_analyst", PStr "ANALYSIS")])].
Proof.
  intros E.
  apply (summarizer_reads_three_fields (H := E)); reflexivity.
Defined.

(** The final synthesis does not see the analyses of the first group. *)
Lemma final_synthesis_reads_summaries_only_witness :
  let E := Demo.env Demo.nominal in
  @final_synthesizer E [("question_1", Demo.question0)]
  = @final_synthesizer E
      [("question_1", Demo.question0);
       ("group_1", PDict [("market_analyst", PStr "ANALYSIS")])].
Proof.
  intros E.
  apply (final_synthesis_reads_summaries_only (H := E)); [reflexivity| |reflexivity].
  intros i Hi.
  assert (i = 1 \/ i = 2 \/ i = 3 \/ i = 4 \/ i = 5) as Hcases by lia.
  destruct Hcases as [-> | [-> | [-> | [-> | ->]]]]; reflexivity.
Defined.

(** The entry of a failed market analyst adds nothing to the section. *)
Lemma search_section_skips_failed_experts_witness :
  let E := Demo.env Demo.nominal in
  @format_search_info E
    [("search_results",
      PDict [("market_analyst_search", PDict [("error", PStr "No API key found for OpenAI")])])]
    "SECTION" "market_analyst"
  = Ok "SECTION".
Proof.
  intros E.
  destruct (search_section_skips_failed_experts (H := E)
              [("search_results",
                PDict [("market_analyst_search",
                        PDict [("error", PStr "No API key found for OpenAI")])])]
              [("market_analyst_search", PDict [("error", PStr "No API key found for OpenAI")])]
              [("error", PStr "No API key found for OpenAI")]
              "SECTION" "market_analyst" eq_refl eq_refl) as [Hnone _].
  apply Hnone. reflexivity.
Defined.
